(** * StyleSync: wardrobe store, attribute extractor and recommendation engine

    A shallow embedding of [production_app.py].  The class [StyleSyncBot]
    becomes a state record threaded through a small state monad; the hosted
    model behind [structured_llm] and [recommendation_llm] is an oracle
    stored in that record, and every call to it is logged, as is every
    Streamlit call.

    Modelling conventions.
    - A Python [str] is a Rocq [string]; one character is one [ascii], read
      as a code point below 256.  The literals of the user interface are
      written as they stand in the source file; those with characters
      outside that range only ever reach the page.
    - A Python [int] is a [Z]; [str(n)] is stdpp's decimal printer [pretty].
    - The dictionaries kept in [self.wardrobe] always have the twelve keys
      of [ClothingItem] followed by ['id'], so they are a record whose fields
      are in key insertion order; [Item.to_json] is the dictionary as the
      [json] module sees it.
    - [Set[str]] is a [gset string]; its iteration order (which Python leaves
      unspecified) is taken to be [elements].  No statement below depends on
      which enumeration it is.
    - Exceptions raised by the model client are instances of [Exception]
      (interpreter signals such as [KeyboardInterrupt] are outside the
      model). *)

From Stdlib Require Import ZArith List String Ascii Lia.
From Stdlib.Strings Require Import Byte.
From stdpp Require Import base decidable strings list list_numbers sorting gmap
  pretty.

Local Open Scope string_scope.
Local Open Scope list_scope.
Local Open Scope Z_scope.

(** ** Python built-ins used by the program *)

Module Py.

(** The values that reach [get_item_by_id] as [item_id]: the annotation
    says [str], callers may also pass the [int] that [add_to_wardrobe]
    returned. *)
Inductive object : Type :=
| int (z : Z)
| str (s : string).

(** [str(o)]. *)
Definition str_of (o : object) : string :=
  match o with
  | int z => pretty z
  | str s => s
  end.

(** [sep.join(l)]. *)
Definition join (sep : string) (l : list string) : string :=
  String.concat sep l.

(** An instance of [Exception]; [str(e)] is its message. *)
Record Exception : Type := mkException {
  exc_type : string;
  exc_message : string
}.

Definition str_of_exc (e : Exception) : string := exc_message e.

(** [s * n] for a string [s]. *)
Fixpoint repeat_str (s : string) (n : nat) : string :=
  match n with
  | O => ""
  | S n' => s +:+ repeat_str s n'
  end.

End Py.

(** ** The [json] module: values and [json.dumps(obj, indent=k)] *)

Module Json.

(** The Python values that JSON text denotes (floats are not modelled). *)
Local Unset Elimination Schemes.
Inductive json : Type :=
| JNull
| JBool (b : bool)
| JInt (z : Z)
| JStr (s : string)
| JList (l : list json)
| JDict (d : list (string * json)).
Local Set Elimination Schemes.

Definition dquote : ascii := "034"%char.
Definition backslash : ascii := "092"%char.
Definition nl : ascii := "010"%char.
Definition cr : ascii := "013"%char.
Definition tab : ascii := "009"%char.
Definition bs : ascii := "008"%char.
Definition ff : ascii := "012"%char.

Definition hex_digit (n : N) : ascii :=
  match n with
  | 0 => "0" | 1 => "1" | 2 => "2" | 3 => "3" | 4 => "4" | 5 => "5"
  | 6 => "6" | 7 => "7" | 8 => "8" | 9 => "9" | 10 => "a" | 11 => "b"
  | 12 => "c" | 13 => "d" | 14 => "e" | _ => "f"
  end%char%N.

(** ['\\u{0:04x}'.format(n)] for [n < 256]. *)
Definition u_escape (n : N) : string :=
  String backslash (String "u" (String "0" (String "0"
    (String (hex_digit (n / 16)%N) (String (hex_digit (n mod 16)%N) ""))))).

(** The replacement [ESCAPE_ASCII.sub] makes for one character:
    [ESCAPE_DCT] first, [\uXXXX] for everything else outside [' '..'~']. *)
Definition escape_char (c : ascii) : string :=
  let n := N_of_ascii c in
  if Ascii.eqb c dquote then String backslash (String dquote "")
  else if Ascii.eqb c backslash then String backslash (String backslash "")
  else if Ascii.eqb c nl then String backslash "n"
  else if Ascii.eqb c cr then String backslash "r"
  else if Ascii.eqb c tab then String backslash "t"
  else if Ascii.eqb c bs then String backslash "b"
  else if Ascii.eqb c ff then String backslash "f"
  else if ((n <? 32) || (126 <? n))%N then u_escape n
  else String c "".

Fixpoint escape_ascii (s : string) : string :=
  match s with
  | EmptyString => ""
  | String c s' => escape_char c +:+ escape_ascii s'
  end.

(** [py_encode_basestring_ascii]. *)
Definition encode_basestring_ascii (s : string) : string :=
  String dquote (escape_ascii s +:+ String dquote "").

(** ['\n' + _indent * level]. *)
Definition newline_indent (_indent : string) (level : nat) : string :=
  String nl (Py.repeat_str _indent level).

(** [_iterencode] with [_indent] set, [item_separator = ','] and
    [key_separator = ': '] (the defaults once [indent] is given), the
    chunks joined. *)
Fixpoint iterencode (_indent : string) (level : nat) (o : json) {struct o}
  : string :=
  match o with
  | JNull => "null"
  | JBool true => "true"
  | JBool false => "false"
  | JInt z => pretty z
  | JStr s => encode_basestring_ascii s
  | JList [] => "[]"
  | JList (v :: lst) =>
      "[" +:+ newline_indent _indent (S level)
      +:+ iterencode _indent (S level) v
      +:+ (fix items (l : list json) : string :=
             match l with
             | [] => ""
             | v' :: l' =>
                 "," +:+ newline_indent _indent (S level)
                 +:+ iterencode _indent (S level) v' +:+ items l'
             end) lst
      +:+ newline_indent _indent level +:+ "]"
  | JDict [] => "{}"
  | JDict ((k, v) :: dct) =>
      "{" +:+ newline_indent _indent (S level)
      +:+ encode_basestring_ascii k +:+ ": "
      +:+ iterencode _indent (S level) v
      +:+ (fix items (l : list (string * json)) : string :=
             match l with
             | [] => ""
             | (k', v') :: l' =>
                 "," +:+ newline_indent _indent (S level)
                 +:+ encode_basestring_ascii k' +:+ ": "
                 +:+ iterencode _indent (S level) v' +:+ items l'
             end) dct
      +:+ newline_indent _indent level +:+ "}"
  end.

(** [json.dumps(obj, indent=indent)] for an integer [indent]. *)
Definition dumps (obj : json) (indent : nat) : string :=
  iterencode (Py.repeat_str " " indent) 0 obj.

(** *** [json.loads]

    The decoder of [json.decoder] and [json.scanner], reading a suffix of
    the text instead of an index into it.  Three things end a scan without
    a value: a [JSONDecodeError]; text whose value is outside the model
    (a floating-point literal, or a [\uXXXX] escape of a code point above
    255); and the recursion budget [fuel] running out, which does not
    happen with the budget [loads] gives (lemma [loads_not_out_of_fuel];
    the interpreter's own limit on nesting depth is not modelled). *)

Inductive outcome (A : Type) : Type :=
| Ok (a : A)
| JSONDecodeError
| Unmodelled
| OutOfFuel.
Arguments Ok {A} a.
Arguments JSONDecodeError {A}.
Arguments Unmodelled {A}.
Arguments OutOfFuel {A}.

Definition and_then {A B} (r : outcome A) (k : A -> outcome B) : outcome B :=
  match r with
  | Ok a => k a
  | JSONDecodeError => JSONDecodeError
  | Unmodelled => Unmodelled
  | OutOfFuel => OutOfFuel
  end.

(** [WHITESPACE = re.compile(r'[ \t\n\r]*')]. *)
Definition is_ws (c : ascii) : bool :=
  Ascii.eqb c " " || Ascii.eqb c tab || Ascii.eqb c nl || Ascii.eqb c cr.

Fixpoint skip_ws (s : string) : string :=
  match s with
  | String c s' => if is_ws c then skip_ws s' else s
  | EmptyString => s
  end.

(** [s[idx:idx + len(p)] == p], giving what follows. *)
Fixpoint strip_prefix (p s : string) : option string :=
  match p, s with
  | EmptyString, _ => Some s
  | String a p', String b s' =>
      if Ascii.eqb a b then strip_prefix p' s' else None
  | String _ _, EmptyString => None
  end.

Definition hex_value (c : ascii) : option N :=
  let n := N_of_ascii c in
  if ((48 <=? n) && (n <=? 57))%N then Some (n - 48)%N
  else if ((97 <=? n) && (n <=? 102))%N then Some (n - 87)%N
  else if ((65 <=? n) && (n <=? 70))%N then Some (n - 55)%N
  else None.

(** The table [BACKSLASH]. *)
Definition unescape (esc : ascii) : option ascii :=
  if Ascii.eqb esc dquote then Some dquote
  else if Ascii.eqb esc backslash then Some backslash
  else if Ascii.eqb esc "/" then Some "/"%char
  else if Ascii.eqb esc "b" then Some bs
  else if Ascii.eqb esc "f" then Some ff
  else if Ascii.eqb esc "n" then Some nl
  else if Ascii.eqb esc "r" then Some cr
  else if Ascii.eqb esc "t" then Some tab
  else None.

Definition prepend (c : ascii) (r : outcome (string * string))
  : outcome (string * string) :=
  and_then r (fun '(chars, rest) => Ok (String c chars, rest)).

(** [scanstring(s, end)] with [strict=True]; [s] starts after the opening
    quote. *)
Fixpoint scanstring (s : string) : outcome (string * string) :=
  match s with
  | EmptyString => JSONDecodeError
  | String c s' =>
      if Ascii.eqb c dquote then Ok (EmptyString, s')
      else if Ascii.eqb c backslash then
        match s' with
        | EmptyString => JSONDecodeError
        | String esc s'' =>
            if Ascii.eqb esc "u" then
              match s'' with
              | String h1 (String h2 (String h3 (String h4 s3))) =>
                  match hex_value h1, hex_value h2, hex_value h3,
                        hex_value h4 with
                  | Some a, Some b, Some c', Some d =>
                      let uni := (((a * 16 + b) * 16 + c') * 16 + d)%N in
                      if (uni <? 256)%N
                      then prepend (ascii_of_N uni) (scanstring s3)
                      else Unmodelled
                  | _, _, _, _ => JSONDecodeError
                  end
              | _ => JSONDecodeError
              end
            else
              match unescape esc with
              | Some char => prepend char (scanstring s'')
              | None => JSONDecodeError
              end
        end
      else if (N_of_ascii c <? 32)%N then JSONDecodeError
      else prepend c (scanstring s')
  end.

Definition digit_value (c : ascii) : option N :=
  let n := N_of_ascii c in
  if ((48 <=? n) && (n <=? 57))%N then Some (n - 48)%N else None.

Definition starts_with_digit (s : string) : bool :=
  match s with
  | String c _ => bool_decide (is_Some (digit_value c))
  | EmptyString => false
  end.

(** A run of digits, read into [acc]. *)
Fixpoint scan_digits (acc : N) (s : string) : N * string :=
  match s with
  | String c s' =>
      match digit_value c with
      | Some d => scan_digits (acc * 10 + d) s'
      | None => (acc, s)
      end
  | EmptyString => (acc, s)
  end.

(** The integer part of [NUMBER_RE]: [0], or a digit from 1 to 9 and then
    any digits. *)
Definition match_integer (s : string) : option (N * string) :=
  match s with
  | String c s' =>
      if Ascii.eqb c "0" then Some (0%N, s')
      else if starts_with_digit s then Some (scan_digits 0 s)
      else None
  | EmptyString => None
  end.

(** Whether the fraction or the exponent part of [NUMBER_RE] matches at
    [s]: a dot and a digit, or [e], an optional sign and a digit. *)
Definition frac_or_exp (s : string) : bool :=
  match s with
  | String c s' =>
      if Ascii.eqb c "." then starts_with_digit s'
      else if Ascii.eqb c "e" || Ascii.eqb c "E" then
        match s' with
        | String sign s'' =>
            if Ascii.eqb sign "+" || Ascii.eqb sign "-"
            then starts_with_digit s''
            else starts_with_digit s'
        | EmptyString => false
        end
      else false
  | EmptyString => false
  end.

(** [NUMBER_RE.match]: [None] when the pattern does not match. *)
Definition match_number (s : string) : option (outcome (json * string)) :=
  let '(negative, digits) :=
    match s with
    | String c s' => if Ascii.eqb c "-" then (true, s') else (false, s)
    | EmptyString => (false, s)
    end in
  match match_integer digits with
  | Some (n, rest) =>
      if frac_or_exp rest then Some Unmodelled
      else Some (Ok (JInt (if negative then - Z.of_N n else Z.of_N n), rest))
  | None => None
  end.

(** [dict(pairs)]: a key that comes again keeps its place and takes the
    later value. *)
Fixpoint dict_set (d : list (string * json)) (k : string) (v : json)
  : list (string * json) :=
  match d with
  | [] => [(k, v)]
  | (k', v') :: d' =>
      if String.eqb k' k then (k', v) :: d' else (k', v') :: dict_set d' k v
  end.

Definition dict_of_pairs (pairs : list (string * json))
  : list (string * json) :=
  fold_left (fun d '(k, v) => dict_set d k v) pairs [].

(** [scan_once], [JSONArray] and [JSONObject]; the two loops are
    [array_loop] (entered at a value) and [object_loop] (entered after the
    opening quote of a key). *)
Fixpoint scan_once (fuel : nat) (s : string) {struct fuel}
  : outcome (json * string) :=
  match fuel with
  | O => OutOfFuel
  | S fuel' =>
      match s with
      | EmptyString => JSONDecodeError
      | String nextchar s' =>
          if Ascii.eqb nextchar dquote then
            and_then (scanstring s') (fun '(chars, rest) =>
              Ok (JStr chars, rest))
          else if Ascii.eqb nextchar "{" then
            match skip_ws s' with
            | String c rest =>
                if Ascii.eqb c "}" then Ok (JDict [], rest)
                else if Ascii.eqb c dquote then
                  and_then (object_loop fuel' rest) (fun '(pairs, rest') =>
                    Ok (JDict (dict_of_pairs pairs), rest'))
                else JSONDecodeError
            | EmptyString => JSONDecodeError
            end
          else if Ascii.eqb nextchar "[" then
            match skip_ws s' with
            | String c rest =>
                if Ascii.eqb c "]" then Ok (JList [], rest)
                else
                  and_then (array_loop fuel' (String c rest))
                    (fun '(values, rest') => Ok (JList values, rest'))
            | EmptyString => JSONDecodeError
            end
          else
            match strip_prefix "null" s, strip_prefix "true" s,
                  strip_prefix "false" s with
            | Some rest, _, _ => Ok (JNull, rest)
            | None, Some rest, _ => Ok (JBool true, rest)
            | None, None, Some rest => Ok (JBool false, rest)
            | None, None, None =>
                match match_number s with
                | Some r => r
                | None =>
                    match strip_prefix "NaN" s, strip_prefix "Infinity" s,
                          strip_prefix "-Infinity" s with
                    | None, None, None => JSONDecodeError
                    | _, _, _ => Unmodelled
                    end
                end
            end
      end
  end
with array_loop (fuel : nat) (s : string) {struct fuel}
  : outcome (list json * string) :=
  match fuel with
  | O => OutOfFuel
  | S fuel' =>
      and_then (scan_once fuel' s) (fun '(value, rest) =>
        match skip_ws rest with
        | String c rest' =>
            if Ascii.eqb c "]" then Ok ([value], rest')
            else if Ascii.eqb c "," then
              and_then (array_loop fuel' (skip_ws rest'))
                (fun '(values, rest'') => Ok (value :: values, rest''))
            else JSONDecodeError
        | EmptyString => JSONDecodeError
        end)
  end
with object_loop (fuel : nat) (s : string) {struct fuel}
  : outcome (list (string * json) * string) :=
  match fuel with
  | O => OutOfFuel
  | S fuel' =>
      and_then (scanstring s) (fun '(key, rest) =>
        match skip_ws rest with
        | String colon rest1 =>
            if Ascii.eqb colon ":" then
              and_then (scan_once fuel' (skip_ws rest1))
                (fun '(value, rest2) =>
                   match skip_ws rest2 with
                   | String c rest3 =>
                       if Ascii.eqb c "}" then Ok ([(key, value)], rest3)
                       else if Ascii.eqb c "," then
                         match skip_ws rest3 with
                         | String q rest4 =>
                             if Ascii.eqb q dquote then
                               and_then (object_loop fuel' rest4)
                                 (fun '(pairs, rest5) =>
                                    Ok ((key, value) :: pairs, rest5))
                             else JSONDecodeError
                         | EmptyString => JSONDecodeError
                         end
                       else JSONDecodeError
                   | EmptyString => JSONDecodeError
                   end)
            else JSONDecodeError
        | EmptyString => JSONDecodeError
        end)
  end.

(** [json.loads(s)]: one value, white space around it, nothing after. *)
Definition loads (s : string) : outcome json :=
  and_then (scan_once (S (2 * String.length s)) (skip_ws s))
    (fun '(obj, rest) =>
       match skip_ws rest with
       | EmptyString => Ok obj
       | String _ _ => JSONDecodeError
       end).

(** *** What the round trip is stated with *)

(** Induction on [json] that reaches the values inside lists and
    dictionaries. *)
Definition json_ind (P : json -> Prop)
    (Hnull : P JNull) (Hbool : forall b, P (JBool b))
    (Hint : forall z, P (JInt z)) (Hstr : forall s, P (JStr s))
    (Hlist : forall l, Forall P l -> P (JList l))
    (Hdict : forall d, Forall (fun kv => P kv.2) d -> P (JDict d))
  : forall v, P v :=
  fix go (v : json) : P v :=
    match v with
    | JNull => Hnull
    | JBool b => Hbool b
    | JInt z => Hint z
    | JStr s => Hstr s
    | JList l =>
        Hlist l
          ((fix all (l : list json) : Forall P l :=
              match l with
              | [] => @List.Forall_nil _ P
              | v' :: l' => @List.Forall_cons _ P v' l' (go v') (all l')
              end) l)
    | JDict d =>
        Hdict d
          ((fix all (d : list (string * json))
              : Forall (fun kv => P kv.2) d :=
              match d with
              | [] => @List.Forall_nil _ _
              | kv :: d' =>
                  @List.Forall_cons _ (fun kv => P kv.2) kv d' (go kv.2)
                    (all d')
              end) d)
    end.

(** A value a Python program can hold: no key twice in a [dict]. *)
Fixpoint well_formed (v : json) : Prop :=
  match v with
  | JList l =>
      (fix all (l : list json) : Prop :=
         match l with
         | [] => True
         | v' :: l' => well_formed v' /\ all l'
         end) l
  | JDict d =>
      NoDup d.*1 /\
      (fix all (d : list (string * json)) : Prop :=
         match d with
         | [] => True
         | (_, v') :: d' => well_formed v' /\ all d'
         end) d
  | _ => True
  end.

(** A recursion budget that is enough to scan the text of [v]. *)
Fixpoint need (v : json) : nat :=
  match v with
  | JList l =>
      S ((fix sum (l : list json) : nat :=
            match l with
            | [] => O
            | v' :: l' => S (need v' + sum l')
            end) l)
  | JDict d =>
      S ((fix sum (d : list (string * json)) : nat :=
            match d with
            | [] => O
            | (_, v') :: d' => S (need v' + sum d')
            end) d)
  | _ => 1%nat
  end.

(** What [iterencode] writes after a value: nothing, a comma, or a new
    line. *)
Definition delimited (rest : string) : bool :=
  match rest with
  | EmptyString => true
  | String c _ => Ascii.eqb c "," || Ascii.eqb c nl
  end.

(** The characters a JSON value written by [iterencode] starts with. *)
Definition value_start (c : ascii) : bool :=
  Ascii.eqb c "n" || Ascii.eqb c "t" || Ascii.eqb c "f"
  || Ascii.eqb c dquote || Ascii.eqb c "[" || Ascii.eqb c "{"
  || Ascii.eqb c "-" || bool_decide (is_Some (digit_value c)).

(** The inner loops of [iterencode], after the first item. *)
Fixpoint list_items (_indent : string) (level : nat) (l : list json)
  : string :=
  match l with
  | [] => ""
  | v' :: l' =>
      "," +:+ newline_indent _indent (S level)
      +:+ iterencode _indent (S level) v' +:+ list_items _indent level l'
  end.

Fixpoint dict_items (_indent : string) (level : nat)
    (l : list (string * json)) : string :=
  match l with
  | [] => ""
  | (k', v') :: l' =>
      "," +:+ newline_indent _indent (S level)
      +:+ encode_basestring_ascii k' +:+ ": "
      +:+ iterencode _indent (S level) v' +:+ dict_items _indent level l'
  end.

End Json.
Export Json.

(** ** [base64.b64encode] *)

Module Base64.

Definition alphabet : string :=
  "ABCDEFGHIJKLMNOPQRSTUVWXYZabcdefghijklmnopqrstuvwxyz0123456789+/".

Definition sextet (n : N) : ascii :=
  match String.get (N.to_nat n) alphabet with
  | Some c => c
  | None => "="%char
  end.

Fixpoint b64encode (bs : list byte) : string :=
  match bs with
  | [] => ""
  | [a] =>
      let x := Byte.to_N a in
      String (sextet (x / 4)) (String (sextet (x mod 4 * 16)) "==")
  | [a; b] =>
      let x := Byte.to_N a in
      let y := Byte.to_N b in
      String (sextet (x / 4))
        (String (sextet (x mod 4 * 16 + y / 16))
           (String (sextet (y mod 16 * 4)) "="))
  | a :: b :: c :: rest =>
      let x := Byte.to_N a in
      let y := Byte.to_N b in
      let z := Byte.to_N c in
      String (sextet (x / 4))
        (String (sextet (x mod 4 * 16 + y / 16))
           (String (sextet (y mod 16 * 4 + z / 64))
              (String (sextet (z mod 64)) (b64encode rest))))
  end%N.

End Base64.

(** ** Data model *)

(** [class ClothingItem(BaseModel)]: what the model returns for one image. *)
Record ClothingItem : Type := mkClothingItem {
  category : string;
  description : string;
  color : list string;
  gender : string;
  fabric : string;
  pattern : string;
  fit : string;
  sleeve_length : string;
  neck_type : string;
  occasion : list string;
  season : list string;
  features : gset string
}.

(** [class OutfitRecommendation(BaseModel)]. *)
Record OutfitRecommendation : Type := mkOutfitRecommendation {
  recommended_items : list string;
  reasoning : string;
  style_tips : list string
}.

(** [json.loads(clothing_item.model_dump_json())]: the JSON-mode dump of the
    model, fields in declaration order, the set as an array. *)
Definition model_dump (c : ClothingItem) : list (string * json) :=
  [ ("category", JStr (category c));
    ("description", JStr (description c));
    ("color", JList (JStr <$> color c));
    ("gender", JStr (gender c));
    ("fabric", JStr (fabric c));
    ("pattern", JStr (pattern c));
    ("fit", JStr (fit c));
    ("sleeve_length", JStr (sleeve_length c));
    ("neck_type", JStr (neck_type c));
    ("occasion", JList (JStr <$> occasion c));
    ("season", JList (JStr <$> season c));
    ("features", JList (JStr <$> elements (features c))) ].

(** The dictionaries stored in [self.wardrobe]. *)
Module Item.

Record t : Type := mk {
  category : string;
  description : string;
  color : list string;
  gender : string;
  fabric : string;
  pattern : string;
  fit : string;
  sleeve_length : string;
  neck_type : string;
  occasion : list string;
  season : list string;
  features : list string;
  id : Z
}.

(** The dictionary as a JSON value, keys in insertion order. *)
Definition to_json (d : t) : json :=
  JDict
    [ ("category", JStr (category d));
      ("description", JStr (description d));
      ("color", JList (JStr <$> color d));
      ("gender", JStr (gender d));
      ("fabric", JStr (fabric d));
      ("pattern", JStr (pattern d));
      ("fit", JStr (fit d));
      ("sleeve_length", JStr (sleeve_length d));
      ("neck_type", JStr (neck_type d));
      ("occasion", JList (JStr <$> occasion d));
      ("season", JList (JStr <$> season d));
      ("features", JList (JStr <$> features d));
      ("id", JInt (id d)) ].

End Item.

(** [item_dict = json.loads(clothing_item.model_dump_json())] followed by
    [item_dict['id'] = n]. *)
Definition item_dict (clothing_item : ClothingItem) (n : Z) : Item.t :=
  {| Item.category := category clothing_item;
     Item.description := description clothing_item;
     Item.color := color clothing_item;
     Item.gender := gender clothing_item;
     Item.fabric := fabric clothing_item;
     Item.pattern := pattern clothing_item;
     Item.fit := fit clothing_item;
     Item.sleeve_length := sleeve_length clothing_item;
     Item.neck_type := neck_type clothing_item;
     Item.occasion := occasion clothing_item;
     Item.season := season clothing_item;
     Item.features := elements (features clothing_item);
     Item.id := n |}.

(** ** Prompts and the Model Gateway *)

Inductive content_part : Type :=
| text_part (text : string)
| image_url_part (image_url : string).

Inductive message : Type :=
| SystemMessage (content : list content_part)
| HumanMessage (content : list content_part).

Definition prompt : Type := list message.

(** What [llm.with_structured_output(schema).invoke(prompt)] does: it raises
    or it returns a value of the schema.  The first argument is the number of
    calls made before this one, so that the answer may change from call to
    call. *)
Definition gateway (A : Type) : Type := nat -> prompt -> Py.Exception + A.

(** ** Streamlit calls *)

Inductive st_container : Type :=
| expander (label : string)
| column (i : nat)
| spinner (text : string).

Inductive st_call : Type :=
| st_error (body : string)
| st_success (body : string)
| st_warning (body : string)
| st_info (body : string)
| st_subheader (body : string)
| st_write (body : string)
| st_json (body : json)
| st_columns (n : nat)
| st_enter (c : st_container)
| st_exit (c : st_container)
| st_download_button (label data file_name mime : string).

(** ** State: the bot, the page rendered so far, the calls to the gateway *)

Record state : Type := mkState {
  structured_llm : gateway ClothingItem;
  recommendation_llm : gateway OutfitRecommendation;
  wardrobe : list Item.t;
  page : list st_call;
  gateway_log : list prompt
}.

(** [StyleSyncBot.__init__]: [self.wardrobe = []]. *)
Definition init (llm1 : gateway ClothingItem)
    (llm2 : gateway OutfitRecommendation) : state :=
  {| structured_llm := llm1;
     recommendation_llm := llm2;
     wardrobe := [];
     page := [];
     gateway_log := [] |}.

Definition M (A : Type) : Type := state -> A * state.

Definition ret {A} (a : A) : M A := fun s => (a, s).

Definition bind {A B} (m : M A) (k : A -> M B) : M B :=
  fun s => let (a, s') := m s in k a s'.

Notation "x <- m ;; k" := (bind m (fun x => k))
  (at level 100, m at next level, right associativity).
Notation "m ;; k" := (bind m (fun _ => k))
  (at level 100, right associativity).

(** [for x in l: body]. *)
Fixpoint for_each {A} (l : list A) (body : A -> M unit) : M unit :=
  match l with
  | [] => ret tt
  | x :: l' => body x ;; for_each l' body
  end.

Definition get_wardrobe : M (list Item.t) := fun s => (wardrobe s, s).

(** [self.wardrobe.append(item_dict)]. *)
Definition wardrobe_append (item_dict : Item.t) : M unit :=
  fun s =>
    (tt, {| structured_llm := structured_llm s;
            recommendation_llm := recommendation_llm s;
            wardrobe := wardrobe s ++ [item_dict];
            page := page s;
            gateway_log := gateway_log s |}).

(** One Streamlit call. *)
Definition st (c : st_call) : M unit :=
  fun s =>
    (tt, {| structured_llm := structured_llm s;
            recommendation_llm := recommendation_llm s;
            wardrobe := wardrobe s;
            page := page s ++ [c];
            gateway_log := gateway_log s |}).

(** [with container: body]. *)
Definition st_with {A} (c : st_container) (body : M A) : M A :=
  st (st_enter c) ;; a <- body ;; st (st_exit c) ;; ret a.

(** [llm.invoke(prompt)], the call recorded. *)
Definition invoke {A} (llm : state -> gateway A) (p : prompt)
  : M (Py.Exception + A) :=
  fun s =>
    (llm s (length (gateway_log s)) p,
     {| structured_llm := structured_llm s;
        recommendation_llm := recommendation_llm s;
        wardrobe := wardrobe s;
        page := page s;
        gateway_log := gateway_log s ++ [p] |}).

(** [try: x = call; rest x / except Exception as e: handler e], where
    [call] is the one statement of the block that can raise. *)
Definition try_except {A B} (call : M (Py.Exception + A))
    (rest : A -> M B) (handler : Py.Exception -> M B) : M B :=
  r <- call ;;
  match r with
  | inr x => rest x
  | inl e => handler e
  end.

(** ** Prompt texts *)

Definition analyze_system_text : string :=
  "You are an expert fashion analyst. Analyze the clothing item in the image and extract detailed information about its properties. 
                        Focus on identifying the category, colors, fabric type, pattern, fit, and other relevant fashion attributes.
                        Be specific and accurate in your analysis. If certain attributes are not clearly visible, make reasonable inferences based on what you can see.
                        Output the information in the specified JSON format.".

Definition analyze_human_text : string :=
  "Analyze this clothing item and extract its properties.".

(** The f-string of [get_outfit_recommendations]; its holes are
    [json.dumps(self.wardrobe, indent=2)] and [num_recommendations]. *)
Definition recommend_system_text (wardrobe_json : string)
    (num_recommendations : Z) : string :=
  "You are an expert fashion stylist. Based on the user's preferences and their wardrobe items, 
                        recommend complete outfits that match their needs. Consider color coordination, style compatibility, occasion appropriateness, and seasonal suitability.
                        
                        User's Wardrobe:
                        "
  +:+ wardrobe_json +:+
  "
                        
                        Guidelines:
                        1. Recommend complete outfits (try to include both top and bottom wear when applicable)
                        2. Consider color harmony and style coherence
                        3. Match the occasion and season specified by the user
                        4. Provide practical styling advice
                        5. Maximum "
  +:+ pretty num_recommendations +:+
  " outfit recommendations
                        6. Only use item IDs that exist in the wardrobe".

(** The f-string [user_preferences] built in [main]. *)
Definition user_preferences_text
    (occasion season time_of_day style_preference additional_notes : string)
  : string :=
  "
            Occasion: "
  +:+ occasion +:+
  "
            Season: "
  +:+ season +:+
  "
            Time of Day: "
  +:+ time_of_day +:+
  "
            Style Preference: "
  +:+ style_preference +:+
  "
            Additional Notes: "
  +:+ additional_notes +:+
  "
            ".

(** ** [class StyleSyncBot] *)

(** [base64.b64encode(image_bytes).decode("utf-8")]. *)
Definition encode_image (image_bytes : list byte) : string :=
  Base64.b64encode image_bytes.

(** The [prompt] list built in [analyze_clothing_image]. *)
Definition analyze_prompt (image_base64 : string) : prompt :=
  [ SystemMessage [ text_part analyze_system_text ];
    HumanMessage
      [ text_part analyze_human_text;
        image_url_part ("data:image/jpeg;base64," +:+ image_base64) ] ].

Definition analyze_clothing_image (image_bytes : list byte)
  : M (option ClothingItem) :=
  let image_base64 := encode_image image_bytes in
  let prompt := analyze_prompt image_base64 in
  try_except (invoke structured_llm prompt)
    (fun response => ret (Some response))
    (fun e =>
       st (st_error ("Error analyzing image: " +:+ Py.str_of_exc e)) ;;
       ret None).

Definition add_to_wardrobe (clothing_item : ClothingItem) : M Z :=
  w <- get_wardrobe ;;
  let item_dict := item_dict clothing_item (Z.of_nat (length w) + 1) in
  wardrobe_append item_dict ;;
  ret (Item.id item_dict).

(** [json.dumps(self.wardrobe, indent=2)]. *)
Definition wardrobe_json (w : list Item.t) : string :=
  dumps (JList (Item.to_json <$> w)) 2.

(** The [prompt] list built in [get_outfit_recommendations]. *)
Definition recommend_prompt (w : list Item.t) (user_preferences : string)
    (num_recommendations : Z) : prompt :=
  [ SystemMessage
      [ text_part
          (recommend_system_text (wardrobe_json w) num_recommendations) ];
    HumanMessage [ text_part ("User preferences: " +:+ user_preferences) ] ].

Definition get_outfit_recommendations (user_preferences : string)
    (num_recommendations : Z) : M (option OutfitRecommendation) :=
  w <- get_wardrobe ;;
  match w with
  | [] => ret None
  | _ :: _ =>
      let prompt := recommend_prompt w user_preferences num_recommendations in
      try_except (invoke recommendation_llm prompt)
        (fun response => ret (Some response))
        (fun e =>
           st (st_error
                 ("Error getting recommendations: " +:+ Py.str_of_exc e)) ;;
           ret None)
  end.

Definition get_item_by_id (item_id : Py.object) : M (option Item.t) :=
  w <- get_wardrobe ;;
  ret (List.find
         (fun item =>
            String.eqb (Py.str_of (Py.int (Item.id item))) (Py.str_of item_id))
         w).

Definition display_outfit_recommendation
    (recommendation : OutfitRecommendation) : M unit :=
  st (st_subheader "üéØ Recommended Outfit") ;;
  st (st_write "**Outfit Items:**") ;;
  for_each (recommended_items recommendation) (fun item_id =>
    item <- get_item_by_id (Py.str item_id) ;;
    match item with
    | Some item =>
        st_with
          (expander
             ("Item " +:+ item_id +:+ ": " +:+ Item.category item +:+ " - "
              +:+ Py.join ", " (Item.color item)))
          (st (st_columns 2) ;;
           st_with (column 1)
             (st (st_write ("**Description:** " +:+ Item.description item)) ;;
              st (st_write ("**Fabric:** " +:+ Item.fabric item)) ;;
              st (st_write ("**Pattern:** " +:+ Item.pattern item)) ;;
              st (st_write ("**Fit:** " +:+ Item.fit item))) ;;
           st_with (column 2)
             (st (st_write
                    ("**Occasions:** " +:+ Py.join ", " (Item.occasion item))) ;;
              st (st_write
                    ("**Seasons:** " +:+ Py.join ", " (Item.season item))) ;;
              st (st_write
                    ("**Features:** " +:+ Py.join ", " (Item.features item)))))
    | None => ret tt
    end) ;;
  st (st_write "**Why this outfit works:**") ;;
  st (st_write (reasoning recommendation)) ;;
  match style_tips recommendation with
  | [] => ret tt
  | _ :: _ =>
      st (st_write "**Styling Tips:**") ;;
      for_each (style_tips recommendation) (fun tip =>
        st (st_write ("‚Ä¢ " +:+ tip)))
  end.

(** ** The button handlers of [main] *)

(** Tab 1, the body of [if st.button(f"Analyze {uploaded_file.name}")]. *)
Definition analyze_button (image_bytes : list byte) : M unit :=
  st_with (spinner "Analyzing clothing item...")
    (clothing_item <- analyze_clothing_image image_bytes ;;
     match clothing_item with
     | Some clothing_item =>
         item_id <- add_to_wardrobe clothing_item ;;
         st (st_success
               ("‚úÖ Added to wardrobe as Item #" +:+ pretty item_id)) ;;
         st (st_json (JDict (model_dump clothing_item)))
     | None => ret tt
     end).

(** Tab 2 from [if not st.session_state.bot or not ...wardrobe]; [clicked]
    is what [st.button("Get Recommendations")] returns. *)
Definition recommendations_tab
    (occasion season time_of_day style_preference additional_notes : string)
    (clicked : bool) : M unit :=
  w <- get_wardrobe ;;
  match w with
  | [] =>
      st (st_warning
            "Please add some clothing items to your wardrobe first!")
  | _ :: _ =>
      let user_preferences :=
        user_preferences_text occasion season time_of_day style_preference
          additional_notes in
      if clicked then
        st_with (spinner "Creating your perfect outfit...")
          (recommendations <- get_outfit_recommendations user_preferences 3 ;;
           match recommendations with
           | Some recommendations =>
               display_outfit_recommendation recommendations
           | None =>
               st (st_error
                     "Could not generate recommendations. Please try again.")
           end)
      else ret tt
  end.

(** Tab 3: the wardrobe listing and the export button; [clicked] is what
    [st.button("Export Wardrobe as JSON")] returns. *)
Definition wardrobe_tab (clicked : bool) : M unit :=
  w <- get_wardrobe ;;
  match w with
  | [] =>
      st (st_info
            "Your wardrobe is empty. Start by adding some clothing items!")
  | _ :: _ =>
      for_each w (fun item =>
        st_with
          (expander
             ("Item #" +:+ pretty (Item.id item) +:+ ": "
              +:+ Item.category item +:+ " - "
              +:+ Py.join ", " (Item.color item)))
          (st (st_columns 3) ;;
           st_with (column 1)
             (st (st_write ("**Category:** " +:+ Item.category item)) ;;
              st (st_write ("**Colors:** " +:+ Py.join ", " (Item.color item))) ;;
              st (st_write ("**Pattern:** " +:+ Item.pattern item)) ;;
              st (st_write ("**Fabric:** " +:+ Item.fabric item))) ;;
           st_with (column 2)
             (st (st_write ("**Fit:** " +:+ Item.fit item)) ;;
              st (st_write
                    ("**Sleeve Length:** " +:+ Item.sleeve_length item)) ;;
              st (st_write ("**Neck Type:** " +:+ Item.neck_type item)) ;;
              st (st_write ("**Gender:** " +:+ Item.gender item))) ;;
           st_with (column 3)
             (st (st_write
                    ("**Occasions:** " +:+ Py.join ", " (Item.occasion item))) ;;
              st (st_write
                    ("**Seasons:** " +:+ Py.join ", " (Item.season item))) ;;
              st (st_write
                    ("**Features:** " +:+ Py.join ", " (Item.features item)))) ;;
           st (st_write ("**Description:** " +:+ Item.description item)))) ;;
      if clicked then
        st (st_download_button "Download Wardrobe JSON" (wardrobe_json w)
              "my_wardrobe.json" "application/json")
      else ret tt
  end.

(** ** Sessions: sequences of operations on one bot *)

Inductive op : Type :=
| analyze (image_bytes : list byte)
| add (clothing_item : ClothingItem)
| recommend (user_preferences : string) (num_recommendations : Z)
| get_by_id (item_id : Py.object)
| display (recommendation : OutfitRecommendation)
| click_analyze (image_bytes : list byte)
| view_recommendations
    (occasion season time_of_day style_preference additional_notes : string)
    (clicked : bool)
| view_wardrobe (export_clicked : bool).

Definition run_op (o : op) : M unit :=
  match o with
  | analyze image_bytes => analyze_clothing_image image_bytes ;; ret tt
  | add clothing_item => add_to_wardrobe clothing_item ;; ret tt
  | recommend user_preferences num_recommendations =>
      get_outfit_recommendations user_preferences num_recommendations ;;
      ret tt
  | get_by_id item_id => get_item_by_id item_id ;; ret tt
  | display recommendation => display_outfit_recommendation recommendation
  | click_analyze image_bytes => analyze_button image_bytes
  | view_recommendations o s t p a clicked =>
      recommendations_tab o s t p a clicked
  | view_wardrobe clicked => wardrobe_tab clicked
  end.

Definition run (ops : list op) : M unit := for_each ops run_op.

(** The state a session reaches from a fresh bot. *)
Definition session (llm1 : gateway ClothingItem)
    (llm2 : gateway OutfitRecommendation) (ops : list op) : state :=
  (run ops (init llm1 llm2)).2.

(** [N] calls of [add_to_wardrobe] in a row, the returned ids collected. *)
Fixpoint add_all (items : list ClothingItem) : M (list Z) :=
  match items with
  | [] => ret []
  | clothing_item :: items' =>
      item_id <- add_to_wardrobe clothing_item ;;
      ids <- add_all items' ;;
      ret (item_id :: ids)
  end.

(** The ids [1..n]. *)
Definition ids_upto (n : nat) : list Z := Z.of_nat <$> seq 1 n.

(** [m] never touches [self.wardrobe]. *)
Definition read_only {A} (m : M A) : Prop :=
  forall s, wardrobe (m s).2 = wardrobe s.

(** The state with [l] appended to the page. *)
Definition add_page (s : state) (l : list st_call) : state :=
  {| structured_llm := structured_llm s;
     recommendation_llm := recommendation_llm s;
     wardrobe := wardrobe s;
     page := page s ++ l;
     gateway_log := gateway_log s |}.

(** The state with the call [p] appended to the gateway log. *)
Definition log_call (s : state) (p : prompt) : state :=
  {| structured_llm := structured_llm s;
     recommendation_llm := recommendation_llm s;
     wardrobe := wardrobe s;
     page := page s;
     gateway_log := gateway_log s ++ [p] |}.

(** ** Sample data *)

(** The item of the scenario: a blue T-shirt. *)
Definition blue_tshirt : ClothingItem :=
  {| category := "T-Shirt";
     description := "A plain blue cotton T-shirt";
     color := ["Blue"];
     gender := "Unisex";
     fabric := "Cotton";
     pattern := "Solid";
     fit := "Regular Fit";
     sleeve_length := "Short";
     neck_type := "Round";
     occasion := ["Casual"];
     season := ["Summer"];
     features := {[ "Breathable" ]} |}.

(** An upload: a PNG image of one blue pixel. *)
Definition tiny_png : list byte :=
  [ x89; x50; x4e; x47; x0d; x0a; x1a; x0a; x00; x00;
    x00; x0d; x49; x48; x44; x52; x00; x00; x00; x01;
    x00; x00; x00; x01; x08; x06; x00; x00; x00; x1f;
    x15; xc4; x89; x00; x00; x00; x0d; x49; x44; x41;
    x54; x78; x9c; x63; x60; x60; xf8; xff; x1f; x00;
    x03; x02; x01; xff; xe6; x77; x0b; xae; x00; x00;
    x00; x00; x49; x45; x4e; x44; xae; x42; x60; x82 ]%byte.

(** A gateway that is down, and gateways that always give the same answer. *)
Definition failing_llm {A} : gateway A :=
  fun _ _ => inl (Py.mkException "RuntimeError" "quota exceeded").

Definition constant_llm {A} (a : A) : gateway A := fun _ _ => inr a.

(** A recommendation that names item 1 and an id no wardrobe item has. *)
Definition dangling_recommendation : OutfitRecommendation :=
  {| recommended_items := ["1"; "7"];
     reasoning := "Blue goes with everything.";
     style_tips := ["Roll the sleeves."] |}.

(** ** What a recommendation looks like on the page *)

(** The expander [display_outfit_recommendation] opens for an item it
    found. *)
Definition render_item (item_id : string) (item : Item.t) : list st_call :=
  let label :=
    "Item " +:+ item_id +:+ ": " +:+ Item.category item +:+ " - "
    +:+ Py.join ", " (Item.color item) in
  [ st_enter (expander label);
    st_columns 2;
    st_enter (column 1);
    st_write ("**Description:** " +:+ Item.description item);
    st_write ("**Fabric:** " +:+ Item.fabric item);
    st_write ("**Pattern:** " +:+ Item.pattern item);
    st_write ("**Fit:** " +:+ Item.fit item);
    st_exit (column 1);
    st_enter (column 2);
    st_write ("**Occasions:** " +:+ Py.join ", " (Item.occasion item));
    st_write ("**Seasons:** " +:+ Py.join ", " (Item.season item));
    st_write ("**Features:** " +:+ Py.join ", " (Item.features item));
    st_exit (column 2);
    st_exit (expander label) ].

(** What [get_item_by_id(item_id)] returns for a textual [item_id] when the
    wardrobe is [w]. *)
Definition lookup_item (w : list Item.t) (item_id : string) : option Item.t :=
  List.find
    (fun item =>
       String.eqb (Py.str_of (Py.int (Item.id item)))
         (Py.str_of (Py.str item_id)))
    w.

(** What one entry of [recommended_items] puts on the page. *)
Definition render_entry (w : list Item.t) (item_id : string) : list st_call :=
  match lookup_item w item_id with
  | Some item => render_item item_id item
  | None => []
  end.

(** The styling tips, under their heading when there are any. *)
Definition render_tips (tips : list string) : list st_call :=
  match tips with
  | [] => []
  | _ :: _ =>
      st_write "**Styling Tips:**"
      :: ((fun tip => st_write ("‚Ä¢ " +:+ tip)) <$> tips)
  end.

(** [m], run in [s], returns [a] and appends [l] to the page, nothing
    else. *)
Definition emits {A} (m : M A) (s : state) (a : A) (l : list st_call) : Prop :=
  m s = (a, add_page s l).

(** The recommendation with only the entries [get_item_by_id] finds. *)
Definition known_items (w : list Item.t) (r : OutfitRecommendation)
  : OutfitRecommendation :=
  {| recommended_items :=
       filter (fun item_id => is_Some (lookup_item w item_id))
         (recommended_items r);
     reasoning := reasoning r;
     style_tips := style_tips r |}.

(** The page of a recommendation whose entries are [entries]. *)
Definition render_recommendation (w : list Item.t) (entries : list string)
    (r : OutfitRecommendation) : list st_call :=
  [ st_subheader "üéØ Recommended Outfit"; st_write "**Outfit Items:**" ]
  ++ (entries ≫= render_entry w)
  ++ [ st_write "**Why this outfit works:**"; st_write (reasoning r) ]
  ++ render_tips (style_tips r).

(** ** What the wardrobe tab shows, and what the page is made of *)

(** The label of the expander the wardrobe tab opens for an item. *)
Definition listing_label (item : Item.t) : string :=
  "Item #" +:+ pretty (Item.id item) +:+ ": " +:+ Item.category item
  +:+ " - " +:+ Py.join ", " (Item.color item).

(** The expander of one item in the wardrobe tab. *)
Definition render_listing_item (item : Item.t) : list st_call :=
  [ st_enter (expander (listing_label item));
    st_columns 3;
    st_enter (column 1);
    st_write ("**Category:** " +:+ Item.category item);
    st_write ("**Colors:** " +:+ Py.join ", " (Item.color item));
    st_write ("**Pattern:** " +:+ Item.pattern item);
    st_write ("**Fabric:** " +:+ Item.fabric item);
    st_exit (column 1);
    st_enter (column 2);
    st_write ("**Fit:** " +:+ Item.fit item);
    st_write ("**Sleeve Length:** " +:+ Item.sleeve_length item);
    st_write ("**Neck Type:** " +:+ Item.neck_type item);
    st_write ("**Gender:** " +:+ Item.gender item);
    st_exit (column 2);
    st_enter (column 3);
    st_write ("**Occasions:** " +:+ Py.join ", " (Item.occasion item));
    st_write ("**Seasons:** " +:+ Py.join ", " (Item.season item));
    st_write ("**Features:** " +:+ Py.join ", " (Item.features item));
    st_exit (column 3);
    st_write ("**Description:** " +:+ Item.description item);
    st_exit (expander (listing_label item)) ].

(** The labels of the expanders opened on a page, in page order. *)
Definition expander_labels (l : list st_call) : list string :=
  omap
    (fun c =>
       match c with
       | st_enter (expander label) => Some label
       | _ => None
       end)
    l.

(** The data of the download buttons on a page, in page order. *)
Definition downloads (l : list st_call) : list string :=
  omap
    (fun c =>
       match c with
       | st_download_button _ data _ _ => Some data
       | _ => None
       end)
    l.

(** The error messages on a page, in page order. *)
Definition errors (l : list st_call) : list string :=
  omap (fun c => match c with st_error body => Some body | _ => None end) l.


(** The characters of a string. *)
Definition chars (s : string) : list ascii := list_ascii_of_string s.

(** A printable ASCII character or a line feed. *)
Definition plain_ascii (c : ascii) : bool :=
  Ascii.eqb c nl
  || ((32 <=? N_of_ascii c)%N && (N_of_ascii c <=? 126)%N).

(** Text made of printable ASCII characters and line feeds only. *)
Definition plain_text (s : string) : bool := forallb plain_ascii (chars s).

(** A character of the Base64 alphabet, or the padding character. *)
Definition base64_char (c : ascii) : bool :=
  Ascii.eqb c "=" || existsb (Ascii.eqb c) (chars Base64.alphabet).

(** * Properties *)

(** ** The state monad *)

Lemma add_page_nil s : add_page s [] = s.
Proof. destruct s; unfold add_page; simpl. by rewrite app_nil_r. Qed.

Lemma add_page_app s l1 l2 : add_page (add_page s l1) l2 = add_page s (l1 ++ l2).
Proof. unfold add_page; simpl. by rewrite app_assoc. Qed.

Lemma st_add_page c s : st c s = (tt, add_page s [c]).
Proof. reflexivity. Qed.

Lemma read_only_ret {A} (a : A) : read_only (ret a).
Proof. by intros s. Qed.

Lemma read_only_bind {A B} (m : M A) (k : A -> M B) :
  read_only m -> (forall a, read_only (k a)) -> read_only (bind m k).
Proof.
  intros Hm Hk s. unfold bind. specialize (Hm s).
  destruct (m s) as [a s']. simpl in Hm. rewrite <- Hm. apply Hk.
Qed.

Lemma read_only_st c : read_only (st c).
Proof. by intros s. Qed.

Lemma read_only_get_wardrobe : read_only get_wardrobe.
Proof. by intros s. Qed.

Lemma read_only_invoke {A} (llm : state -> gateway A) p : read_only (invoke llm p).
Proof. by intros s. Qed.

Lemma read_only_for_each {A} (l : list A) (body : A -> M unit) :
  (forall x, read_only (body x)) -> read_only (for_each l body).
Proof.
  intros Hbody. induction l as [|x l IH]; simpl.
  - apply read_only_ret.
  - apply read_only_bind; auto.
Qed.

Lemma read_only_try_except {A B} (call : M (Py.Exception + A))
    (rest : A -> M B) (handler : Py.Exception -> M B) :
  read_only call -> (forall x, read_only (rest x)) ->
  (forall e, read_only (handler e)) -> read_only (try_except call rest handler).
Proof.
  intros Hc Hr Hh. unfold try_except. apply read_only_bind; [done|].
  intros [e|x]; auto.
Qed.

Lemma read_only_st_with {A} c (body : M A) :
  read_only body -> read_only (st_with c body).
Proof.
  intros Hb. unfold st_with.
  repeat (apply read_only_bind; [first [apply read_only_st | done] | intros]).
  apply read_only_ret.
Qed.

Ltac frame_step :=
  lazymatch goal with
  | |- forall _, _ => intros
  | |- read_only (ret _) => apply read_only_ret
  | |- read_only (st _) => apply read_only_st
  | |- read_only get_wardrobe => apply read_only_get_wardrobe
  | |- read_only (invoke _ _) => apply read_only_invoke
  | |- read_only (bind _ _) => apply read_only_bind
  | |- read_only (for_each _ _) => apply read_only_for_each
  | |- read_only (try_except _ _ _) => apply read_only_try_except
  | |- read_only (st_with _ _) => apply read_only_st_with
  | |- read_only (match ?x with _ => _ end) => destruct x
  | |- read_only (if ?x then _ else _) => destruct x
  end.

Ltac frame := repeat frame_step.

(** ** The read operations *)

Lemma analyze_clothing_image_read_only image_bytes :
  read_only (analyze_clothing_image image_bytes).
Proof. unfold analyze_clothing_image. frame. Qed.

Lemma get_outfit_recommendations_read_only prefs n :
  read_only (get_outfit_recommendations prefs n).
Proof. unfold get_outfit_recommendations. frame. Qed.

Lemma get_item_by_id_read_only item_id : read_only (get_item_by_id item_id).
Proof. unfold get_item_by_id. frame. Qed.

Lemma display_outfit_recommendation_read_only r :
  read_only (display_outfit_recommendation r).
Proof. unfold display_outfit_recommendation, get_item_by_id. frame. Qed.

Lemma wardrobe_tab_read_only clicked : read_only (wardrobe_tab clicked).
Proof. unfold wardrobe_tab. frame. Qed.

Lemma recommendations_tab_read_only o s t p a clicked :
  read_only (recommendations_tab o s t p a clicked).
Proof.
  unfold recommendations_tab. frame;
    auto using get_outfit_recommendations_read_only,
      display_outfit_recommendation_read_only.
Qed.

Lemma analyze_clothing_image_eq image_bytes s :
  let p := analyze_prompt (encode_image image_bytes) in
  analyze_clothing_image image_bytes s =
  match structured_llm s (length (gateway_log s)) p with
  | inr response => (Some response, log_call s p)
  | inl e =>
      (None,
       add_page (log_call s p)
         [st_error ("Error analyzing image: " +:+ Py.str_of_exc e)])
  end.
Proof.
  intros p. unfold analyze_clothing_image, try_except, bind, invoke. fold p.
  destruct (structured_llm s _ p); reflexivity.
Qed.

Lemma analyze_button_wardrobe image_bytes s :
  wardrobe (analyze_button image_bytes s).2 =
  match (analyze_clothing_image image_bytes s).1 with
  | Some c =>
      wardrobe s ++ [item_dict c (Z.of_nat (length (wardrobe s)) + 1)]
  | None => wardrobe s
  end.
Proof.
  unfold analyze_button, st_with, bind. rewrite st_add_page.
  rewrite !analyze_clothing_image_eq. simpl.
  destruct (structured_llm s _ _); reflexivity.
Qed.

Lemma add_to_wardrobe_eq c s :
  add_to_wardrobe c s =
  (Z.of_nat (length (wardrobe s)) + 1,
   (wardrobe_append (item_dict c (Z.of_nat (length (wardrobe s)) + 1)) s).2).
Proof. reflexivity. Qed.

(** ** Every operation appends at most one item, and only at the end *)

Lemma run_op_wardrobe o s :
  wardrobe (run_op o s).2 = wardrobe s \/
  exists c,
    wardrobe (run_op o s).2 =
    wardrobe s ++ [item_dict c (Z.of_nat (length (wardrobe s)) + 1)].
Proof.
  destruct o as [b|c|p n|i|r|b|o t d p a k|k]; cbn [run_op].
  - left. apply (read_only_bind _ (fun _ => ret tt));
      auto using analyze_clothing_image_read_only, read_only_ret.
  - right. by exists c.
  - left. apply (read_only_bind _ (fun _ => ret tt));
      auto using get_outfit_recommendations_read_only, read_only_ret.
  - left. apply (read_only_bind _ (fun _ => ret tt));
      auto using get_item_by_id_read_only, read_only_ret.
  - left. apply display_outfit_recommendation_read_only.
  - rewrite analyze_button_wardrobe.
    destruct (analyze_clothing_image b s).1 as [c|]; eauto.
  - left. apply recommendations_tab_read_only.
  - left. apply wardrobe_tab_read_only.
Qed.

Lemma run_app ops1 ops2 s : run (ops1 ++ ops2) s = run ops2 (run ops1 s).2.
Proof.
  revert s. induction ops1 as [|o ops1 IH]; intros s; [done|].
  unfold run in *. simpl. unfold bind at 1 2.
  destruct (run_op o s) as [[] s1]. apply IH.
Qed.

Lemma session_snoc llm1 llm2 ops o :
  session llm1 llm2 (ops ++ [o]) = (run_op o (session llm1 llm2 ops)).2.
Proof.
  unfold session. rewrite run_app. unfold run at 1. simpl. unfold bind.
  by destruct (run_op o _) as [[] ?].
Qed.

(** ** The ids [1..n] *)

Lemma ids_upto_length n : length (ids_upto n) = n.
Proof. unfold ids_upto. by rewrite length_fmap, length_seq. Qed.

Lemma ids_upto_S n : ids_upto (S n) = ids_upto n ++ [Z.of_nat n + 1].
Proof.
  unfold ids_upto. rewrite seq_S, fmap_app. simpl. do 2 f_equal. lia.
Qed.

Lemma elem_of_ids_upto n k : k ∈ ids_upto n <-> 1 <= k <= Z.of_nat n.
Proof.
  unfold ids_upto. rewrite list_elem_of_fmap. split.
  - intros (i & -> & Hi). apply elem_of_seq in Hi. lia.
  - intros Hk. exists (Z.to_nat k). split; [lia|]. apply elem_of_seq. lia.
Qed.

Lemma ids_upto_lookup n i :
  (i < n)%nat -> ids_upto n !! i = Some (Z.of_nat i + 1).
Proof.
  intros Hi. unfold ids_upto. rewrite list_lookup_fmap, lookup_seq_lt by done.
  simpl. f_equal. lia.
Qed.

Lemma ids_upto_sorted n : StronglySorted Z.lt (ids_upto n).
Proof.
  induction n as [|n IH]; [constructor|].
  rewrite ids_upto_S. apply StronglySorted_app_2; [|done|repeat constructor].
  intros x y Hx Hy. apply elem_of_ids_upto in Hx.
  apply list_elem_of_singleton in Hy. lia.
Qed.

Lemma ids_upto_NoDup n : NoDup (ids_upto n).
Proof.
  unfold ids_upto. apply NoDup_fmap_2; [|apply NoDup_seq].
  intros ???. lia.
Qed.

(** ** The invariant of the store: the ids are [1..len(wardrobe)] *)

Lemma session_ids llm1 llm2 ops :
  Item.id <$> wardrobe (session llm1 llm2 ops) =
  ids_upto (length (wardrobe (session llm1 llm2 ops))).
Proof.
  induction ops as [|o ops IH] using rev_ind; [done|].
  rewrite session_snoc.
  destruct (run_op_wardrobe o (session llm1 llm2 ops)) as [->|[c ->]]; [done|].
  rewrite fmap_app, length_app, IH. simpl.
  by rewrite Nat.add_1_r, ids_upto_S.
Qed.

(** ** Adding *)

Lemma add_all_spec items s :
  let ids := Z.of_nat <$> seq (S (length (wardrobe s))) (length items) in
  (add_all items s).1 = ids /\
  wardrobe (add_all items s).2 = wardrobe s ++ zip_with item_dict items ids.
Proof.
  revert s. induction items as [|c items IH]; intros s; simpl.
  - by rewrite app_nil_r.
  - unfold bind at 1 3. rewrite add_to_wardrobe_eq.
    set (s1 := (wardrobe_append _ s).2).
    specialize (IH s1). unfold bind.
    destruct (add_all items s1) as [ids s2]. simpl in *.
    destruct IH as [-> ->].
    assert (length (wardrobe s ++ [item_dict c (Z.of_nat (length (wardrobe s)) + 1)])
            = S (length (wardrobe s))) as -> by (rewrite length_app; simpl; lia).
    replace (Z.of_nat (length (wardrobe s)) + 1)
      with (Z.of_nat (S (length (wardrobe s)))) by lia.
    split; [done|]. by rewrite <- app_assoc.
Qed.

(** The stored record is the dictionary the source builds: the dump of the
    model, then the key ['id']. *)
Lemma item_dict_to_json c n :
  Item.to_json (item_dict c n) = JDict (model_dump c ++ [("id", JInt n)]).
Proof. reflexivity. Qed.

(** The fields of the record [add_to_wardrobe] builds from an answer. *)
Ltac item_fields :=
  cbn; repeat split;
  first [reflexivity | apply NoDup_elements | apply list_to_set_elements_L].

(** C1. From a freshly created bot, [N] calls of [add_to_wardrobe] return
    the ids [1, 2, ..., N] in call order, the stored items carry exactly
    these ids, and the store holds the items in call order; one call
    returns [len(self.wardrobe) + 1] and appends the item with that id.
    The item stored by a call holds every field of the model it was given
    ([features] as a list without repetition with the elements of the set)
    and the id the call returned. *)
Theorem add_assigns_ids_in_sequence llm1 llm2 (items : list ClothingItem) :
  let holds (c : ClothingItem) (n : Z) (item : Item.t) : Prop :=
    Item.category item = category c /\
    Item.description item = description c /\
    Item.color item = color c /\
    Item.gender item = gender c /\
    Item.fabric item = fabric c /\
    Item.pattern item = pattern c /\
    Item.fit item = fit c /\
    Item.sleeve_length item = sleeve_length c /\
    Item.neck_type item = neck_type c /\
    Item.occasion item = occasion c /\
    Item.season item = season c /\
    NoDup (Item.features item) /\
    list_to_set (Item.features item) = features c /\
    Item.id item = n in
  (forall c s,
     (add_to_wardrobe c s).1 = Z.of_nat (length (wardrobe s)) + 1 /\
     wardrobe (add_to_wardrobe c s).2 =
       wardrobe s ++ [item_dict c (Z.of_nat (length (wardrobe s)) + 1)]) /\
  (add_all items (init llm1 llm2)).1 = ids_upto (length items) /\
  Item.id <$> wardrobe (add_all items (init llm1 llm2)).2 =
    ids_upto (length items) /\
  wardrobe (add_all items (init llm1 llm2)).2 =
    zip_with item_dict items (ids_upto (length items)) /\
  (forall c s,
     exists item,
       wardrobe (add_to_wardrobe c s).2 = wardrobe s ++ [item] /\
       holds c (add_to_wardrobe c s).1 item) /\
  Forall2 (fun added item => holds added.1 added.2 item)
    (zip items (add_all items (init llm1 llm2)).1)
    (wardrobe (add_all items (init llm1 llm2)).2).
Proof.
  intros holds. split; [done|].
  destruct (add_all_spec items (init llm1 llm2)) as [Hids Hw].
  simpl in Hids, Hw. fold (ids_upto (length items)) in Hids, Hw.
  split; [done|]. split; [|split; [done|]].
  { rewrite Hw. apply list_eq. intros i.
    rewrite list_lookup_fmap, lookup_zip_with.
    destruct (items !! i) as [c|] eqn:Hc; simpl.
    - apply lookup_lt_Some in Hc. by rewrite ids_upto_lookup.
    - apply lookup_ge_None in Hc. symmetry. apply lookup_ge_None.
      by rewrite ids_upto_length. }
  split.
  - intros c s. rewrite add_to_wardrobe_eq. eexists. split; [reflexivity|].
    subst holds. item_fields.
  - rewrite Hids, Hw. generalize (ids_upto (length items)). clear.
    induction items as [|c items IH]; intros [|n ids]; simpl;
      try constructor; [|apply IH].
    subst holds. item_fields.
Qed.

(** C7. In every state a session reaches, whatever operations it was made
    of, the stored ids are pairwise distinct and strictly increasing in
    insertion order, and whatever operations follow, every stored item is
    still at its place with all its fields as they were. *)
Theorem store_invariant llm1 llm2 (ops : list op) :
  let w := wardrobe (session llm1 llm2 ops) in
  NoDup (Item.id <$> w) /\
  StronglySorted Z.lt (Item.id <$> w) /\
  forall (ops' : list op) (i : nat) (item : Item.t),
    w !! i = Some item ->
    wardrobe (session llm1 llm2 (ops ++ ops')) !! i = Some item.
Proof.
  simpl. rewrite session_ids.
  split; [apply ids_upto_NoDup|]. split; [apply ids_upto_sorted|].
  intros ops'. induction ops' as [|o ops' IH] using rev_ind.
  - by rewrite app_nil_r.
  - intros i item Hi. rewrite app_assoc, session_snoc.
    specialize (IH i item Hi).
    destruct (run_op_wardrobe o (session llm1 llm2 (ops ++ ops')))
      as [->|[c ->]]; [done|].
    by apply lookup_app_l_Some.
Qed.

(** C10. [get_item_by_id], [display_outfit_recommendation] and
    [get_outfit_recommendations] end with [self.wardrobe] equal to what it
    was, in every state and so on every path; [add_to_wardrobe] is the
    operation that changes it. *)
Theorem reads_leave_wardrobe_unchanged (s : state) :
  (forall item_id, wardrobe (get_item_by_id item_id s).2 = wardrobe s) /\
  (forall r, wardrobe (display_outfit_recommendation r s).2 = wardrobe s) /\
  (forall prefs n,
     wardrobe (get_outfit_recommendations prefs n s).2 = wardrobe s) /\
  (forall c, wardrobe (add_to_wardrobe c s).2 <> wardrobe s).
Proof.
  split; [intros; apply get_item_by_id_read_only|].
  split; [intros; apply display_outfit_recommendation_read_only|].
  split; [intros; apply get_outfit_recommendations_read_only|].
  intros c H. apply (f_equal length) in H. rewrite add_to_wardrobe_eq in H.
  simpl in H. rewrite length_app in H. simpl in H. lia.
Qed.

(** ** The two calls to the Model Gateway *)

Lemma get_outfit_recommendations_eq prefs n s :
  let p := recommend_prompt (wardrobe s) prefs n in
  get_outfit_recommendations prefs n s =
  match wardrobe s with
  | [] => (None, s)
  | _ :: _ =>
      match recommendation_llm s (length (gateway_log s)) p with
      | inr response => (Some response, log_call s p)
      | inl e =>
          (None,
           add_page (log_call s p)
             [st_error ("Error getting recommendations: " +:+ Py.str_of_exc e)])
      end
  end.
Proof.
  intros p. unfold get_outfit_recommendations, bind, get_wardrobe. subst p.
  destruct (wardrobe s) as [|item w]; [done|].
  unfold try_except, bind, invoke.
  destruct (recommendation_llm s _ _); reflexivity.
Qed.

(** C4. When the gateway raises on the call made by
    [analyze_clothing_image], the method returns [None] instead of raising,
    having shown the error message; [self.wardrobe] is as before, after the
    method and after the whole button handler of [main]. *)
Theorem analyze_failure_adds_nothing (s : state) (image_bytes : list byte)
    (e : Py.Exception) :
  structured_llm s (length (gateway_log s))
    (analyze_prompt (encode_image image_bytes)) = inl e ->
  (analyze_clothing_image image_bytes s).1 = None /\
  wardrobe (analyze_clothing_image image_bytes s).2 = wardrobe s /\
  page (analyze_clothing_image image_bytes s).2 =
    page s ++ [st_error ("Error analyzing image: " +:+ Py.exc_message e)] /\
  wardrobe (analyze_button image_bytes s).2 = wardrobe s.
Proof.
  intros He. rewrite analyze_button_wardrobe, analyze_clothing_image_eq.
  simpl. by rewrite He.
Qed.

(** A bot whose gateway is down, asked to analyze three bytes. *)
Lemma analyze_failure_adds_nothing_witness :
  (analyze_clothing_image [x4d; x61; x6e]%byte
     (init failing_llm failing_llm)).1 = None /\
  wardrobe (analyze_clothing_image [x4d; x61; x6e]%byte
     (init failing_llm failing_llm)).2 = [] /\
  page (analyze_clothing_image [x4d; x61; x6e]%byte
     (init failing_llm failing_llm)).2 =
    [st_error "Error analyzing image: quota exceeded"] /\
  wardrobe (analyze_button [x4d; x61; x6e]%byte
     (init failing_llm failing_llm)).2 = [].
Proof.
  apply (analyze_failure_adds_nothing (init failing_llm failing_llm)
           [x4d; x61; x6e]%byte
           (Py.mkException "RuntimeError" "quota exceeded")).
  reflexivity.
Defined.

(** C2, as stated, fails: the value returned for an empty wardrobe is the
    value returned when the gateway fails.  Here a fresh bot, and the same
    bot after one [add_to_wardrobe] with a gateway that raises: both calls
    return [None]. *)
Lemma recommend_empty_same_value_as_error :
  let empty := init failing_llm failing_llm in
  let failing := (add_to_wardrobe blue_tshirt empty).2 in
  wardrobe empty = [] /\
  wardrobe failing <> [] /\
  recommendation_llm failing (length (gateway_log failing))
    (recommend_prompt (wardrobe failing) "Casual, Summer" 3)
  = inl (Py.mkException "RuntimeError" "quota exceeded") /\
  (get_outfit_recommendations "Casual, Summer" 3 empty).1 =
  (get_outfit_recommendations "Casual, Summer" 3 failing).1.
Proof. repeat split. discriminate. Qed.

(** C2, amended. With an empty wardrobe [get_outfit_recommendations]
    returns [None] at once and leaves the state as it was: no call reaches
    the gateway and nothing is displayed.  [None] is also what the failure
    path returns; that path differs by the call it makes and the error
    message it displays. *)
Theorem recommend_empty_wardrobe (s : state) (prefs : string) (n : Z) :
  wardrobe s = [] ->
  get_outfit_recommendations prefs n s = (None, s) /\
  forall (s' : state) (e : Py.Exception),
    wardrobe s' <> [] ->
    recommendation_llm s' (length (gateway_log s'))
      (recommend_prompt (wardrobe s') prefs n) = inl e ->
    (get_outfit_recommendations prefs n s').1 = None /\
    gateway_log (get_outfit_recommendations prefs n s').2 =
      gateway_log s' ++ [recommend_prompt (wardrobe s') prefs n] /\
    page (get_outfit_recommendations prefs n s').2 =
      page s' ++
      [st_error ("Error getting recommendations: " +:+ Py.exc_message e)].
Proof.
  intros Hw. rewrite get_outfit_recommendations_eq, Hw. split; [done|].
  intros s' e Hw' He. rewrite get_outfit_recommendations_eq. simpl.
  destruct (wardrobe s'); [done|]. by rewrite He.
Qed.

(** A fresh bot. *)
Lemma recommend_empty_wardrobe_witness :
  get_outfit_recommendations "Casual, Summer" 3
    (init failing_llm (constant_llm dangling_recommendation)) =
  (None, init failing_llm (constant_llm dangling_recommendation)).
Proof.
  apply (recommend_empty_wardrobe
           (init failing_llm (constant_llm dangling_recommendation))
           "Casual, Summer" 3).
  reflexivity.
Defined.

(** C8. When the wardrobe is not empty and the gateway answers,
    [get_outfit_recommendations] returns that answer as it is: the same
    [recommended_items], nothing removed or replaced, whether or not the ids
    exist in the wardrobe; the only change of state is the logged call. *)
Theorem recommend_returns_answer_unchanged (s : state) (prefs : string)
    (n : Z) (r : OutfitRecommendation) :
  wardrobe s <> [] ->
  recommendation_llm s (length (gateway_log s))
    (recommend_prompt (wardrobe s) prefs n) = inr r ->
  get_outfit_recommendations prefs n s =
    (Some r, log_call s (recommend_prompt (wardrobe s) prefs n)).
Proof.
  intros Hw Hr. rewrite get_outfit_recommendations_eq. simpl.
  destruct (wardrobe s); [done|]. by rewrite Hr.
Qed.

(** One item in the wardrobe, and an answer that names the ids 1 and 7. *)
Lemma recommend_returns_answer_unchanged_witness :
  get_outfit_recommendations "Casual, Summer" 1
    (add_to_wardrobe blue_tshirt
       (init failing_llm (constant_llm dangling_recommendation))).2 =
  (Some dangling_recommendation,
   log_call
     (add_to_wardrobe blue_tshirt
        (init failing_llm (constant_llm dangling_recommendation))).2
     (recommend_prompt
        (wardrobe
           (add_to_wardrobe blue_tshirt
              (init failing_llm (constant_llm dangling_recommendation))).2)
        "Casual, Summer" 1)).
Proof.
  apply (recommend_returns_answer_unchanged
           (add_to_wardrobe blue_tshirt
              (init failing_llm (constant_llm dangling_recommendation))).2
           "Casual, Summer" 1 dangling_recommendation);
    [discriminate | reflexivity].
Defined.

(** ** [json.loads] reads back what [json.dumps] wrote *)

Module JsonFacts.
Import Json.

#[local] Arguments String.append !s1 s2 : simpl nomatch.

Lemma append_assoc (a b c : string) : (a +:+ b) +:+ c = a +:+ (b +:+ c).
Proof. induction a as [|x a IH]; simpl; [done|]. by rewrite IH. Qed.

(** *** Strings *)

Lemma scanstring_escape_char c rest :
  scanstring (escape_char c +:+ rest) = prepend c (scanstring rest).
Proof. destruct c as [[] [] [] [] [] [] [] []]; reflexivity. Qed.

Lemma scanstring_escape_ascii s rest :
  scanstring (escape_ascii s +:+ String dquote rest) = Ok (s, rest).
Proof.
  induction s as [|c s IH]; [done|]. cbn [escape_ascii].
  by rewrite append_assoc, scanstring_escape_char, IH.
Qed.

Lemma scanstring_encode s rest :
  scanstring ((escape_ascii s +:+ String dquote "") +:+ rest) = Ok (s, rest).
Proof. rewrite append_assoc. apply scanstring_escape_ascii. Qed.

(** *** Integers *)

Lemma pretty_N_go_append x s t : pretty_N_go x s +:+ t = pretty_N_go x (s +:+ t).
Proof.
  revert s. induction (N.lt_wf_0 x) as [x _ IH]; intros s.
  destruct (decide (x = 0)%N) as [->|Hx]; [by rewrite !pretty_N_go_0|].
  rewrite (pretty_N_go_step x s), (pretty_N_go_step x (s +:+ t)) by lia.
  rewrite IH by (apply N.div_lt; lia). reflexivity.
Qed.

Lemma digit_value_pretty_N_char d :
  (d < 10)%N -> digit_value (pretty_N_char d) = Some d.
Proof.
  intros Hd.
  assert (d = 0 \/ d = 1 \/ d = 2 \/ d = 3 \/ d = 4 \/ d = 5 \/ d = 6 \/ d = 7
          \/ d = 8 \/ d = 9)%N as Hcases by lia.
  by repeat (destruct Hcases as [->|Hcases]; [done|]); subst.
Qed.

Lemma scan_digits_pretty_N_go x :
  exists k, forall acc s,
    scan_digits acc (pretty_N_go x s) = scan_digits (acc * 10 ^ k + x) s.
Proof.
  induction (N.lt_wf_0 x) as [x _ IH].
  destruct (decide (x = 0)%N) as [->|Hx].
  - exists 0%N. intros acc s. rewrite pretty_N_go_0. f_equal. lia.
  - destruct (IH (x / 10)%N) as [k Hk]; [apply N.div_lt; lia|].
    exists (N.succ k). intros acc s.
    rewrite pretty_N_go_step, Hk by lia. cbn [scan_digits].
    rewrite digit_value_pretty_N_char by (apply N.mod_lt; lia).
    f_equal. rewrite N.pow_succ_r'. pose proof (N.div_mod x 10). lia.
Qed.

Lemma scan_digits_stop acc s :
  starts_with_digit s = false -> scan_digits acc s = (acc, s).
Proof.
  destruct s as [|c s]; [done|]. simpl. intros H.
  destruct (digit_value c); [|done].
  apply bool_decide_eq_false in H. destruct H. eauto.
Qed.

Lemma scan_digits_pretty_N x rest :
  starts_with_digit rest = false ->
  scan_digits 0 (pretty_N_go x rest) = (x, rest).
Proof.
  intros H. destruct (scan_digits_pretty_N_go x) as [k ->].
  by apply scan_digits_stop.
Qed.

(** A positive number is written with a first digit from 1 to 9. *)
Lemma pretty_N_go_head x s :
  (0 < x)%N ->
  exists d s', pretty_N_go x s = String (pretty_N_char d) s' /\ (0 < d < 10)%N.
Proof.
  revert s. induction (N.lt_wf_0 x) as [x _ IH]; intros s Hx.
  rewrite pretty_N_go_step by done.
  destruct (decide (x / 10 = 0)%N) as [Hq|Hq].
  - rewrite Hq, pretty_N_go_0. exists (x mod 10)%N, s. split; [done|].
    pose proof (N.div_mod x 10). pose proof (N.mod_lt x 10). lia.
  - apply IH; [apply N.div_lt; lia | by apply N.neq_0_lt_0].
Qed.

Lemma delimited_not_number rest :
  delimited rest = true ->
  starts_with_digit rest = false /\ frac_or_exp rest = false.
Proof.
  destruct rest as [|c rest]; [done|]. simpl.
  intros [Hc|Hc]%orb_true_iff; apply Ascii.eqb_eq in Hc; by subst.
Qed.

(** The first character of a number is none of the characters the scanner
    looks for before it tries [NUMBER_RE]. *)
Lemma number_start_tests c :
  Ascii.eqb c "-" || bool_decide (is_Some (digit_value c)) = true ->
  Ascii.eqb c dquote = false /\ Ascii.eqb c "{" = false /\
  Ascii.eqb c "[" = false /\ Ascii.eqb "n" c = false /\
  Ascii.eqb "t" c = false /\ Ascii.eqb "f" c = false.
Proof. destruct c as [[] [] [] [] [] [] [] []]; done. Qed.

Lemma scan_once_number fuel c s r :
  Ascii.eqb c "-" || bool_decide (is_Some (digit_value c)) = true ->
  match_number (String c s) = Some r ->
  scan_once (S fuel) (String c s) = r.
Proof.
  intros (H1 & H2 & H3 & H4 & H5 & H6)%number_start_tests Hr.
  cbn [scan_once strip_prefix]. by rewrite H1, H2, H3, H4, H5, H6, Hr.
Qed.

Lemma pretty_N_char_digit d :
  (0 < d < 10)%N ->
  Ascii.eqb (pretty_N_char d) "-" = false /\
  Ascii.eqb (pretty_N_char d) "0" = false /\
  bool_decide (is_Some (digit_value (pretty_N_char d))) = true.
Proof.
  intros Hd.
  assert (d = 1 \/ d = 2 \/ d = 3 \/ d = 4 \/ d = 5 \/ d = 6 \/ d = 7
          \/ d = 8 \/ d = 9)%N as Hcases by lia.
  by repeat (destruct Hcases as [->|Hcases]; [done|]); subst.
Qed.

Lemma match_integer_pretty_N x rest :
  (0 < x)%N -> starts_with_digit rest = false ->
  match_integer (pretty_N_go x rest) = Some (x, rest).
Proof.
  intros Hx Hrest.
  destruct (pretty_N_go_head x rest Hx) as (d & s' & Heq & Hd).
  destruct (pretty_N_char_digit d Hd) as (_ & H0 & Hdig).
  rewrite Heq. unfold match_integer, starts_with_digit. rewrite H0, Hdig.
  by rewrite <- Heq, scan_digits_pretty_N.
Qed.

Lemma pretty_pos_append p rest :
  pretty (Z.pos p) +:+ rest = pretty_N_go (N.pos p) rest.
Proof.
  unfold pretty, pretty_Z, pretty, pretty_positive, pretty, pretty_N.
  case_decide; [done|]. by rewrite pretty_N_go_append.
Qed.

Lemma match_number_unsigned c s :
  Ascii.eqb c "-" = false ->
  match_number (String c s) =
  match match_integer (String c s) with
  | Some (n, rest) =>
      if frac_or_exp rest then Some Unmodelled
      else Some (Ok (JInt (Z.of_N n), rest))
  | None => None
  end.
Proof. intros H. unfold match_number. cbv beta iota. by rewrite H. Qed.

Lemma match_number_pretty z rest :
  delimited rest = true ->
  match_number (pretty z +:+ rest) = Some (Ok (JInt z, rest)).
Proof.
  intros [Hdig Hfrac]%delimited_not_number. destruct z as [|p|p].
  - change (pretty 0 +:+ rest) with (String "0" rest).
    unfold match_number. simpl. by rewrite Hfrac.
  - rewrite pretty_pos_append.
    destruct (pretty_N_go_head (N.pos p) rest) as (d & s' & Heq & Hd); [lia|].
    destruct (pretty_N_char_digit d Hd) as (Hm & _ & _).
    rewrite Heq, (match_number_unsigned _ _ Hm), <- Heq.
    rewrite match_integer_pretty_N by (done || lia). by rewrite Hfrac.
  - change (pretty (Z.neg p)) with ("-" +:+ pretty (Z.pos p)).
    change (("-" +:+ pretty (Z.pos p)) +:+ rest)
      with (String "-" (pretty (Z.pos p) +:+ rest)).
    rewrite pretty_pos_append. unfold match_number. simpl.
    rewrite match_integer_pretty_N by (done || lia). by rewrite Hfrac.
Qed.

Lemma pretty_head (z : Z) rest :
  exists c s',
    pretty z +:+ rest = String c s' /\
    Ascii.eqb c "-" || bool_decide (is_Some (digit_value c)) = true.
Proof.
  destruct z as [|p|p].
  - by exists "0"%char, rest.
  - rewrite pretty_pos_append.
    destruct (pretty_N_go_head (N.pos p) rest) as (d & s' & Heq & Hd); [lia|].
    destruct (pretty_N_char_digit d Hd) as (_ & _ & Hdig).
    exists (pretty_N_char d), s'. split; [done|]. rewrite Hdig. apply orb_true_r.
  - by exists "-"%char, (pretty (Z.pos p) +:+ rest).
Qed.

Lemma scan_once_int fuel z rest :
  delimited rest = true ->
  scan_once (S fuel) (pretty z +:+ rest) = Ok (JInt z, rest).
Proof.
  intros Hrest. destruct (pretty_head z rest) as (c & s' & Heq & Hc).
  pose proof (match_number_pretty z rest Hrest) as Hm. rewrite Heq in *.
  by apply scan_once_number.
Qed.

(** *** White space and the shape of the text *)

Lemma skip_ws_spaces n x : skip_ws (Py.repeat_str " " n +:+ x) = skip_ws x.
Proof. induction n as [|n IH]; [done|]. simpl. apply IH. Qed.

Lemma skip_ws_indent n level x :
  skip_ws (Py.repeat_str (Py.repeat_str " " n) level +:+ x) = skip_ws x.
Proof.
  induction level as [|level IH]; [done|]. cbn [Py.repeat_str].
  by rewrite append_assoc, skip_ws_spaces.
Qed.

Lemma skip_ws_newline_indent n level x :
  skip_ws (newline_indent (Py.repeat_str " " n) level +:+ x) = skip_ws x.
Proof. unfold newline_indent. simpl. apply skip_ws_indent. Qed.

Lemma iterencode_list _indent level v lst :
  iterencode _indent level (JList (v :: lst)) =
  "[" +:+ newline_indent _indent (S level) +:+ iterencode _indent (S level) v
  +:+ list_items _indent level lst +:+ newline_indent _indent level +:+ "]".
Proof.
  cbn [iterencode]. do 4 f_equal.
  induction lst as [|v' lst IH]; [done|]. cbn [list_items]. by rewrite <- IH.
Qed.

Lemma iterencode_dict _indent level k v dct :
  iterencode _indent level (JDict ((k, v) :: dct)) =
  "{" +:+ newline_indent _indent (S level) +:+ encode_basestring_ascii k
  +:+ ": " +:+ iterencode _indent (S level) v
  +:+ dict_items _indent level dct +:+ newline_indent _indent level +:+ "}".
Proof.
  cbn [iterencode]. do 6 f_equal.
  induction dct as [|[k' v'] dct IH]; [done|]. cbn [dict_items].
  by rewrite <- IH.
Qed.

Lemma value_start_tests c :
  value_start c = true ->
  is_ws c = false /\ Ascii.eqb c "]" = false /\ Ascii.eqb c "}" = false.
Proof. destruct c as [[] [] [] [] [] [] [] []]; done. Qed.

Lemma iterencode_head _indent level v rest :
  exists c s',
    iterencode _indent level v +:+ rest = String c s' /\ value_start c = true.
Proof.
  destruct v as [|[]|z|s|[|v l]|[|[k v] d]];
    try (rewrite ?iterencode_list, ?iterencode_dict; eexists _, _;
         split; [reflexivity|done]).
  destruct (pretty_head z rest) as (c & s' & Heq & Hc).
  exists c, s'. split; [done|]. unfold value_start.
  apply orb_true_iff in Hc as [->| ->]; by rewrite ?orb_true_r.
Qed.

Lemma skip_ws_iterencode _indent level v rest :
  skip_ws (iterencode _indent level v +:+ rest) =
  iterencode _indent level v +:+ rest.
Proof.
  destruct (iterencode_head _indent level v rest) as (c & s' & -> & Hc).
  apply value_start_tests in Hc as (Hws & _). simpl. by rewrite Hws.
Qed.

(** *** Dictionaries without repeated keys *)

Lemma dict_set_fresh d k v : k ∉ d.*1 -> dict_set d k v = d ++ [(k, v)].
Proof.
  induction d as [|[k' v'] d IH]; [done|]. simpl. intros Hk.
  apply not_elem_of_cons in Hk as [Hne Hk].
  destruct (String.eqb_spec k' k) as [->|_]; [done|]. by rewrite IH.
Qed.

Lemma fold_dict_set_fresh pairs acc :
  NoDup (acc.*1 ++ pairs.*1) ->
  fold_left (fun d '(k, v) => dict_set d k v) pairs acc = acc ++ pairs.
Proof.
  revert acc. induction pairs as [|[k v] pairs IH]; intros acc Hnd; simpl.
  - by rewrite app_nil_r.
  - simpl in Hnd. rewrite dict_set_fresh.
    + rewrite IH; [by rewrite <- app_assoc|].
      by rewrite fmap_app, <- app_assoc.
    + apply NoDup_app in Hnd as (_ & Hnd & _). intros Hk.
      apply (Hnd k Hk). apply list_elem_of_here.
Qed.

Lemma dict_of_pairs_NoDup pairs : NoDup pairs.*1 -> dict_of_pairs pairs = pairs.
Proof. intros H. unfold dict_of_pairs. by rewrite fold_dict_set_fresh. Qed.

(** *** Well-formedness and the recursion budget, unfolded *)

Lemma well_formed_list_cons v l :
  well_formed (JList (v :: l)) <-> well_formed v /\ well_formed (JList l).
Proof. reflexivity. Qed.

Lemma well_formed_dict d :
  well_formed (JDict d) <-> NoDup d.*1 /\ Forall (fun kv => well_formed kv.2) d.
Proof.
  cbn [well_formed]. apply and_iff_compat_l.
  induction d as [|[k v] d IH]; [by split|].
  rewrite Forall_cons, <- IH. reflexivity.
Qed.

Lemma need_list_cons v l :
  need (JList (v :: l)) = S (need v + need (JList l)).
Proof. cbn. lia. Qed.

Lemma need_dict_cons k v d :
  need (JDict ((k, v) :: d)) = S (need v + need (JDict d)).
Proof. cbn. lia. Qed.

Lemma need_pos v : (1 <= need v)%nat.
Proof. destruct v; cbn; lia. Qed.

(** *** One turn of the loops of [JSONArray] and [JSONObject] *)

Lemma array_loop_close fuel s v rest rest' :
  scan_once fuel s = Ok (v, rest) ->
  skip_ws rest = String "]" rest' ->
  array_loop (S fuel) s = Ok ([v], rest').
Proof. intros H1 H2. cbn [array_loop]. rewrite H1. cbn [and_then]. by rewrite H2. Qed.

Lemma array_loop_comma fuel s v rest l rest' :
  scan_once fuel s = Ok (v, String "," rest) ->
  array_loop fuel (skip_ws rest) = Ok (l, rest') ->
  array_loop (S fuel) s = Ok (v :: l, rest').
Proof.
  intros H1 H2. cbn [array_loop]. rewrite H1. cbn [and_then].
  change (skip_ws (String "," rest)) with (String "," rest).
  cbv beta iota. change (Ascii.eqb "," "]") with false.
  change (Ascii.eqb "," ",") with true. cbv beta iota. by rewrite H2.
Qed.

Lemma object_loop_close fuel s k v rest1 rest2 rest3 :
  scanstring s = Ok (k, String ":" rest1) ->
  scan_once fuel (skip_ws rest1) = Ok (v, rest2) ->
  skip_ws rest2 = String "}" rest3 ->
  object_loop (S fuel) s = Ok ([(k, v)], rest3).
Proof.
  intros H1 H2 H3. cbn [object_loop]. rewrite H1. cbn [and_then].
  change (skip_ws (String ":" rest1)) with (String ":" rest1).
  cbv beta iota. change (Ascii.eqb ":" ":") with true. cbv beta iota.
  rewrite H2. cbn [and_then]. by rewrite H3.
Qed.

Lemma object_loop_comma fuel s k v rest1 rest2 rest3 d rest4 :
  scanstring s = Ok (k, String ":" rest1) ->
  scan_once fuel (skip_ws rest1) = Ok (v, String "," rest2) ->
  skip_ws rest2 = String dquote rest3 ->
  object_loop fuel rest3 = Ok (d, rest4) ->
  object_loop (S fuel) s = Ok ((k, v) :: d, rest4).
Proof.
  intros H1 H2 H3 H4. cbn [object_loop]. rewrite H1. cbn [and_then].
  change (skip_ws (String ":" rest1)) with (String ":" rest1).
  cbv beta iota. change (Ascii.eqb ":" ":") with true. cbv beta iota.
  rewrite H2. cbn [and_then].
  change (skip_ws (String "," rest2)) with (String "," rest2).
  cbv beta iota. change (Ascii.eqb "," "}") with false.
  change (Ascii.eqb "," ",") with true. cbv beta iota.
  rewrite H3. cbv beta iota. change (Ascii.eqb dquote dquote) with true.
  cbv beta iota. by rewrite H4.
Qed.

(** *** The round trip *)

Section RoundTrip.

Variable n : nat.

Local Abbreviation ind := (Py.repeat_str " " n).

Local Abbreviation reads_back v :=
  (well_formed v ->
   forall level fuel rest,
     le (need v) fuel -> delimited rest = true ->
     scan_once fuel (iterencode ind level v +:+ rest) = Ok (v, rest)).

Lemma delimited_newline_indent level x :
  delimited (newline_indent ind level +:+ x) = true.
Proof. reflexivity. Qed.

Lemma array_loop_items l :
  forall v level fuel rest,
    Forall (fun v => reads_back v) (v :: l) ->
    well_formed (JList (v :: l)) ->
    (need (JList (v :: l)) <= S fuel)%nat ->
    array_loop fuel
      (iterencode ind (S level) v +:+ list_items ind level l
       +:+ newline_indent ind level +:+ String "]" rest)
    = Ok (v :: l, rest).
Proof.
  induction l as [|v' l IHl]; intros v level fuel rest HP Hwf Hfuel;
    apply Forall_cons in HP as [Hv HP];
    apply well_formed_list_cons in Hwf as [Hwfv Hwf];
    rewrite need_list_cons in Hfuel;
    pose proof (need_pos v) as Hpos.
  - change (need (JList [])) with 1%nat in Hfuel.
    destruct fuel as [|fuel]; [lia|].
    eapply array_loop_close.
    + apply Hv; [done | lia | apply delimited_newline_indent].
    + cbn [list_items]. change ("" +:+ ?x) with x.
      by rewrite skip_ws_newline_indent.
  - pose proof (need_pos (JList (v' :: l))).
    destruct fuel as [|fuel]; [lia|].
    eapply array_loop_comma.
    + cbn [list_items]. rewrite !append_assoc.
      change ("," +:+ ?x) with (String "," x).
      apply Hv; [done | lia | done].
    + rewrite skip_ws_newline_indent, skip_ws_iterencode.
      apply IHl; [done | done | lia].
Qed.

Lemma object_loop_items d :
  forall k v level fuel rest,
    Forall (fun kv => reads_back kv.2) ((k, v) :: d) ->
    Forall (fun kv => well_formed kv.2) ((k, v) :: d) ->
    (need (JDict ((k, v) :: d)) <= S fuel)%nat ->
    object_loop fuel
      ((escape_ascii k +:+ String dquote "") +:+ ": "
       +:+ iterencode ind (S level) v +:+ dict_items ind level d
       +:+ newline_indent ind level +:+ String "}" rest)
    = Ok ((k, v) :: d, rest).
Proof.
  induction d as [|[k' v'] d IHd]; intros k v level fuel rest HP Hwf Hfuel;
    apply Forall_cons in HP as [Hv HP];
    apply Forall_cons in Hwf as [Hwfv Hwf];
    rewrite need_dict_cons in Hfuel;
    pose proof (need_pos v) as Hpos; simpl in Hv, Hwfv.
  - change (need (JDict [])) with 1%nat in Hfuel.
    destruct fuel as [|fuel]; [lia|].
    change (": " +:+ ?x) with (String ":" (String " " x)).
    eapply object_loop_close.
    + apply scanstring_encode.
    + change (skip_ws (String " " ?x)) with (skip_ws x).
      rewrite skip_ws_iterencode.
      apply Hv; [done | lia | apply delimited_newline_indent].
    + cbn [dict_items]. change ("" +:+ ?x) with x.
      by rewrite skip_ws_newline_indent.
  - pose proof (need_pos (JDict ((k', v') :: d))).
    destruct fuel as [|fuel]; [lia|].
    change (": " +:+ ?x) with (String ":" (String " " x)).
    eapply object_loop_comma.
    + apply scanstring_encode.
    + change (skip_ws (String " " ?x)) with (skip_ws x).
      rewrite skip_ws_iterencode.
      cbn [dict_items]. rewrite !append_assoc.
      change ("," +:+ ?x) with (String "," x).
      apply Hv; [done | lia | done].
    + rewrite skip_ws_newline_indent. unfold encode_basestring_ascii.
      reflexivity.
    + apply IHd; [done | done | lia].
Qed.

Lemma scan_once_iterencode v : reads_back v.
Proof.
  induction v as [| b | z | s | l IH | d IH] using json_ind;
    intros Hwf level fuel rest Hfuel Hrest;
    (destruct fuel as [|fuel]; [cbn in Hfuel; lia|]).
  - reflexivity.
  - by destruct b.
  - by apply scan_once_int.
  - cbn [iterencode]. unfold encode_basestring_ascii.
    change (String dquote ?x +:+ rest) with (String dquote (x +:+ rest)).
    cbn [scan_once]. change (Ascii.eqb dquote dquote) with true.
    cbv beta iota. by rewrite scanstring_encode.
  - destruct l as [|v l]; [reflexivity|].
    rewrite iterencode_list, !append_assoc.
    change ("[" +:+ ?x) with (String "[" x). cbn [scan_once].
    change (Ascii.eqb "[" dquote) with false.
    change (Ascii.eqb "[" "{") with false.
    change (Ascii.eqb "[" "[") with true. cbv beta iota.
    rewrite skip_ws_newline_indent, skip_ws_iterencode.
    destruct (iterencode_head ind (S level) v
                (list_items ind level l +:+ newline_indent ind level
                 +:+ "]" +:+ rest)) as (c & s' & Heq & Hc).
    apply value_start_tests in Hc as (_ & Hc & _).
    rewrite Heq, Hc, <- Heq.
    change ("]" +:+ rest) with (String "]" rest).
    by rewrite array_loop_items.
  - destruct d as [|[k v] d]; [reflexivity|].
    apply well_formed_dict in Hwf as [Hnd Hwf].
    rewrite iterencode_dict, !append_assoc.
    change ("{" +:+ ?x) with (String "{" x). cbn [scan_once].
    change (Ascii.eqb "{" dquote) with false.
    change (Ascii.eqb "{" "{") with true. cbv beta iota.
    rewrite skip_ws_newline_indent. unfold encode_basestring_ascii.
    change (String dquote ?x +:+ ?y) with (String dquote (x +:+ y)).
    change (skip_ws (String dquote ?x)) with (String dquote x).
    cbv beta iota. change (Ascii.eqb dquote "}") with false.
    change (Ascii.eqb dquote dquote) with true. cbv beta iota.
    change ("}" +:+ rest) with (String "}" rest).
    rewrite object_loop_items by done. cbn [and_then].
    by rewrite dict_of_pairs_NoDup.
Qed.

End RoundTrip.

(** *** The budget [loads] gives is enough *)

Lemma length_append (a b : string) :
  String.length (a +:+ b) = (String.length a + String.length b)%nat.
Proof. induction a as [|c a IH]; simpl; [done|]. by rewrite IH. Qed.

Lemma append_nil_r (a : string) : a +:+ "" = a.
Proof. induction a as [|c a IH]; simpl; [done|]. by rewrite IH. Qed.

Lemma length_newline_indent _indent level :
  (1 <= String.length (newline_indent _indent level))%nat.
Proof. simpl. lia. Qed.

Lemma need_le_length _indent v :
  forall level, (need v <= String.length (iterencode _indent level v))%nat.
Proof.
  induction v as [| b | z | s | l IH | d IH] using json_ind; intros level.
  - simpl. lia.
  - destruct b; simpl; lia.
  - destruct (pretty_head z "") as (c & s' & Heq & _).
    rewrite append_nil_r in Heq. cbn [iterencode need]. rewrite Heq. simpl. lia.
  - simpl. lia.
  - destruct l as [|v l]; [simpl; lia|].
    apply Forall_cons in IH as [Hv IH].
    rewrite iterencode_list, need_list_cons, !length_append.
    pose proof (length_newline_indent _indent (S level)).
    pose proof (length_newline_indent _indent level).
    specialize (Hv (S level)).
    assert (need (JList l) <= S (String.length (list_items _indent level l)))%nat.
    { clear Hv. induction l as [|v' l IHl]; [simpl; lia|].
      apply Forall_cons in IH as [Hv' IH]. specialize (Hv' (S level)).
      rewrite need_list_cons. cbn [list_items]. rewrite !length_append.
      specialize (IHl IH). simpl String.length at 1. lia. }
    simpl String.length at 1. lia.
  - destruct d as [|[k v] d]; [simpl; lia|].
    apply Forall_cons in IH as [Hv IH]. simpl in Hv.
    rewrite iterencode_dict, need_dict_cons, !length_append.
    pose proof (length_newline_indent _indent (S level)).
    pose proof (length_newline_indent _indent level).
    specialize (Hv (S level)).
    assert (need (JDict d) <= S (String.length (dict_items _indent level d)))%nat.
    { clear Hv. induction d as [|[k' v'] d IHd]; [simpl; lia|].
      apply Forall_cons in IH as [Hv' IH]. specialize (Hv' (S level)).
      simpl in Hv'.
      rewrite need_dict_cons. cbn [dict_items]. rewrite !length_append.
      specialize (IHd IH). simpl String.length at 1. lia. }
    simpl String.length at 1. lia.
Qed.

(** Reparsing what [json.dumps(obj, indent=n)] wrote gives [obj] back. *)
Lemma loads_dumps v n : well_formed v -> loads (dumps v n) = Ok v.
Proof.
  intros Hwf. unfold loads, dumps.
  set (text := iterencode (Py.repeat_str " " n) 0 v).
  pose proof (need_le_length (Py.repeat_str " " n) v 0%nat) as Hneed.
  fold text in Hneed.
  rewrite <- (append_nil_r text) at 2. subst text.
  rewrite skip_ws_iterencode, scan_once_iterencode by (done || lia).
  reflexivity.
Qed.

(** *** The budget never runs out *)

Lemma skip_ws_shorter x y :
  skip_ws x = y -> (String.length y <= String.length x)%nat.
Proof.
  intros <-. induction x as [|c x IH]; simpl; [lia|].
  destruct (is_ws c); simpl; lia.
Qed.

Lemma strip_prefix_shorter p x y :
  strip_prefix p x = Some y ->
  String.length x = (String.length p + String.length y)%nat.
Proof.
  revert x. induction p as [|a p IH]; intros x H.
  - by injection H as ->.
  - destruct x as [|b x]; [done|]. simpl in *.
    destruct (Ascii.eqb a b); [|done]. by rewrite (IH _ H).
Qed.

Ltac break_match :=
  match goal with
  | H : context [match ?x with _ => _ end] |- _ =>
      first [ is_var x; destruct x | destruct x eqn:? ]
  | |- context [match ?x with _ => _ end] =>
      first [ is_var x; destruct x | destruct x eqn:? ]
  end.

Lemma scanstring_shorter_aux n :
  forall s, (String.length s <= n)%nat ->
    scanstring s <> OutOfFuel /\
    forall chars rest,
      scanstring s = Ok (chars, rest) ->
      (String.length rest < String.length s)%nat.
Proof.
  induction n as [|n IH]; intros s Hn.
  - destruct s; [|simpl in Hn; lia]. by split.
  - destruct s as [|c s]; [by split|]. simpl in Hn.
    assert (forall x, (String.length x <= n)%nat ->
            forall c', prepend c' (scanstring x) <> OutOfFuel /\
            forall chars rest,
              prepend c' (scanstring x) = Ok (chars, rest) ->
              (String.length rest < String.length x)%nat) as Hpre.
    { intros x Hx c'. destruct (IH x Hx) as [H1 H2].
      unfold prepend, and_then. destruct (scanstring x) as [[chars' rest']| | |];
        split; try done.
      intros chars rest [= <- <-]. by apply (H2 chars'). }
    cbn [scanstring].
    destruct (Ascii.eqb c dquote); [split; [done|]; intros ?? [= <- <-]; simpl; lia|].
    destruct (Ascii.eqb c backslash).
    + destruct s as [|esc s]; [by split|]. simpl in Hn.
      destruct (Ascii.eqb esc "u").
      * destruct s as [|h1 [|h2 [|h3 [|h4 s]]]]; try by split.
        simpl in Hn.
        destruct (hex_value h1), (hex_value h2), (hex_value h3), (hex_value h4);
          try by split.
        destruct (_ <? 256)%N; [|by split].
        destruct (Hpre s ltac:(lia) (ascii_of_N (((n0 * 16 + n1) * 16 + n2) * 16 + n3)))
          as [H1 H2].
        split; [done|]. intros chars rest H. apply H2 in H. simpl. lia.
      * destruct (unescape esc) as [char|]; [|by split].
        destruct (Hpre s ltac:(lia) char) as [H1 H2].
        split; [done|]. intros chars rest H. apply H2 in H. simpl. lia.
    + destruct (_ <? 32)%N; [by split|].
      destruct (Hpre s ltac:(lia) c) as [H1 H2].
      split; [done|]. intros chars rest H. apply H2 in H. simpl. lia.
Qed.

Lemma scanstring_not_out_of_fuel s : scanstring s <> OutOfFuel.
Proof. by apply (scanstring_shorter_aux (String.length s)). Qed.

Lemma scanstring_shorter s chars rest :
  scanstring s = Ok (chars, rest) ->
  (String.length rest < String.length s)%nat.
Proof. by apply (scanstring_shorter_aux (String.length s)). Qed.

Lemma scan_digits_shorter s :
  forall acc, (String.length (scan_digits acc s).2 <= String.length s)%nat.
Proof.
  induction s as [|c s IH]; intros acc; simpl; [lia|].
  destruct (digit_value c); simpl; [|lia]. specialize (IH (acc * 10 + n)%N). lia.
Qed.

Lemma match_integer_shorter s n rest :
  match_integer s = Some (n, rest) ->
  (String.length rest < String.length s)%nat.
Proof.
  destruct s as [|c s]; [done|]. unfold match_integer.
  destruct (Ascii.eqb c "0"); [intros [= <- <-]; simpl; lia|].
  destruct (starts_with_digit (String c s)) eqn:Hd; [|done].
  unfold starts_with_digit in Hd. apply bool_decide_eq_true in Hd as [d Hd].
  cbn [scan_digits]. rewrite Hd. intros [= H].
  pose proof (scan_digits_shorter s (0 * 10 + d)) as Hlen. rewrite H in Hlen.
  simpl in *. lia.
Qed.

Lemma match_number_shorter s r :
  match_number s = Some r ->
  r <> OutOfFuel /\
  forall v rest, r = Ok (v, rest) -> (String.length rest < String.length s)%nat.
Proof.
  unfold match_number.
  destruct s as [|c s].
  - simpl. done.
  - destruct (Ascii.eqb c "-").
    + destruct (match_integer s) as [[n rest]|] eqn:Hm; [|done].
      apply match_integer_shorter in Hm.
      destruct (frac_or_exp rest); intros [= <-]; (split; [done|]);
        intros v rest' [= <- <-]. simpl. lia.
    + destruct (match_integer (String c s)) as [[n rest]|] eqn:Hm; [|done].
      apply match_integer_shorter in Hm.
      destruct (frac_or_exp rest); intros [= <-]; (split; [done|]);
        intros v rest' [= <- <-]. done.
Qed.

Ltac ok_inj H := injection H as <- <-.

Lemma scan_shorter fuel :
  forall s,
    (forall v r, scan_once fuel s = Ok (v, r) ->
                 (String.length r < String.length s)%nat) /\
    (forall l r, array_loop fuel s = Ok (l, r) ->
                 (String.length r < String.length s)%nat) /\
    (forall d r, object_loop fuel s = Ok (d, r) ->
                 (String.length r < String.length s)%nat).
Proof.
  induction fuel as [|fuel IH]; intros s; [by repeat split|].
  split; [|split].
  - intros v r H. cbn [scan_once] in H. destruct s as [|c s]; [done|].
    destruct (Ascii.eqb c dquote).
    { unfold and_then in H.
      destruct (scanstring s) as [[chars rest]| | |] eqn:E; try done.
      ok_inj H. apply scanstring_shorter in E. simpl. lia. }
    destruct (Ascii.eqb c "{").
    { destruct (skip_ws s) as [|c' rest] eqn:Ews; [done|].
      apply skip_ws_shorter in Ews. simpl in Ews.
      destruct (Ascii.eqb c' "}"); [ok_inj H; simpl; lia|].
      destruct (Ascii.eqb c' dquote); [|done]. unfold and_then in H.
      destruct (object_loop fuel rest) as [[pairs rest']| | |] eqn:E; try done.
      ok_inj H. apply (proj2 (proj2 (IH _))) in E. simpl. lia. }
    destruct (Ascii.eqb c "[").
    { destruct (skip_ws s) as [|c' rest] eqn:Ews; [done|].
      apply skip_ws_shorter in Ews.
      destruct (Ascii.eqb c' "]"); [ok_inj H; simpl in *; lia|].
      unfold and_then in H.
      destruct (array_loop fuel (String c' rest)) as [[values rest']| | |] eqn:E;
        try done.
      ok_inj H. apply (proj1 (proj2 (IH _))) in E. simpl in *. lia. }
    destruct (strip_prefix "null" _) eqn:E1.
    { ok_inj H. apply strip_prefix_shorter in E1. rewrite E1. simpl. lia. }
    destruct (strip_prefix "true" _) eqn:E2.
    { ok_inj H. apply strip_prefix_shorter in E2. rewrite E2. simpl. lia. }
    destruct (strip_prefix "false" _) eqn:E3.
    { ok_inj H. apply strip_prefix_shorter in E3. rewrite E3. simpl. lia. }
    destruct (match_number _) as [r'|] eqn:Em.
    { subst r'. apply match_number_shorter in Em as [_ Em]. by apply (Em v). }
    by repeat break_match.
  - intros l r H. cbn [array_loop] in H. unfold and_then in H.
    destruct (scan_once fuel s) as [[value rest]| | |] eqn:E; try done.
    apply (proj1 (IH _)) in E.
    destruct (skip_ws rest) as [|c rest'] eqn:Ews; [done|].
    apply skip_ws_shorter in Ews. simpl in Ews.
    destruct (Ascii.eqb c "]"); [ok_inj H; lia|].
    destruct (Ascii.eqb c ","); [|done].
    destruct (array_loop fuel (skip_ws rest')) as [[values rest'']| | |] eqn:E2;
      try done.
    apply (proj1 (proj2 (IH _))) in E2.
    pose proof (skip_ws_shorter rest' _ eq_refl). ok_inj H. lia.
  - intros d r H. cbn [object_loop] in H. unfold and_then in H.
    destruct (scanstring s) as [[key rest]| | |] eqn:E; try done.
    apply scanstring_shorter in E.
    destruct (skip_ws rest) as [|colon rest1] eqn:Ews; [done|].
    apply skip_ws_shorter in Ews. simpl in Ews.
    destruct (Ascii.eqb colon ":"); [|done].
    destruct (scan_once fuel (skip_ws rest1)) as [[value rest2]| | |] eqn:E2;
      try done.
    apply (proj1 (IH _)) in E2.
    pose proof (skip_ws_shorter rest1 _ eq_refl).
    destruct (skip_ws rest2) as [|c rest3] eqn:Ews2; [done|].
    apply skip_ws_shorter in Ews2. simpl in Ews2.
    destruct (Ascii.eqb c "}"); [ok_inj H; lia|].
    destruct (Ascii.eqb c ","); [|done].
    destruct (skip_ws rest3) as [|q rest4] eqn:Ews3; [done|].
    apply skip_ws_shorter in Ews3. simpl in Ews3.
    destruct (Ascii.eqb q dquote); [|done].
    destruct (object_loop fuel rest4) as [[pairs rest5]| | |] eqn:E3; try done.
    apply (proj2 (proj2 (IH _))) in E3. ok_inj H. lia.
Qed.

Lemma scan_fuel fuel :
  forall s,
    ((2 * String.length s < fuel)%nat -> scan_once fuel s <> OutOfFuel) /\
    ((2 * String.length s + 1 < fuel)%nat -> array_loop fuel s <> OutOfFuel) /\
    ((2 * String.length s < fuel)%nat -> object_loop fuel s <> OutOfFuel).
Proof.
  induction fuel as [|fuel IH]; intros s; [repeat split; lia|].
  split; [|split]; intros Hfuel.
  - cbn [scan_once]. destruct s as [|c s]; [done|]. simpl in Hfuel.
    destruct (Ascii.eqb c dquote).
    { unfold and_then. pose proof (scanstring_not_out_of_fuel s).
      by destruct (scanstring s) as [[chars rest]| | |]. }
    destruct (Ascii.eqb c "{").
    { destruct (skip_ws s) as [|c' rest] eqn:Ews; [done|].
      apply skip_ws_shorter in Ews. simpl in Ews.
      destruct (Ascii.eqb c' "}"); [done|].
      destruct (Ascii.eqb c' dquote); [|done]. unfold and_then.
      destruct (object_loop fuel rest) as [[pairs rest']| | |] eqn:E; try done.
      apply (proj2 (proj2 (IH _))) in E; [done|lia]. }
    destruct (Ascii.eqb c "[").
    { destruct (skip_ws s) as [|c' rest] eqn:Ews; [done|].
      apply skip_ws_shorter in Ews.
      destruct (Ascii.eqb c' "]"); [done|]. unfold and_then.
      destruct (array_loop fuel (String c' rest)) as [[values rest']| | |] eqn:E;
        try done.
      apply (proj1 (proj2 (IH _))) in E; [done|lia]. }
    destruct (strip_prefix "null" _); [done|].
    destruct (strip_prefix "true" _); [done|].
    destruct (strip_prefix "false" _); [done|].
    destruct (match_number _) as [r'|] eqn:Em.
    { by apply match_number_shorter in Em as [Em _]. }
    by repeat break_match.
  - cbn [array_loop]. unfold and_then.
    destruct (scan_once fuel s) as [[value rest]| | |] eqn:E; try done.
    + apply (proj1 (scan_shorter fuel _)) in E.
      destruct (skip_ws rest) as [|c rest'] eqn:Ews; [done|].
      apply skip_ws_shorter in Ews. simpl in Ews.
      destruct (Ascii.eqb c "]"); [done|].
      destruct (Ascii.eqb c ","); [|done].
      destruct (array_loop fuel (skip_ws rest')) as [[values rest'']| | |] eqn:E2;
        try done.
      pose proof (skip_ws_shorter rest' _ eq_refl).
      apply (proj1 (proj2 (IH _))) in E2; [done|lia].
    + apply (proj1 (IH _)) in E; [done|lia].
  - cbn [object_loop]. unfold and_then.
    pose proof (scanstring_not_out_of_fuel s).
    destruct (scanstring s) as [[key rest]| | |] eqn:E; try done.
    apply scanstring_shorter in E.
    destruct (skip_ws rest) as [|colon rest1] eqn:Ews; [done|].
    apply skip_ws_shorter in Ews. simpl in Ews.
    destruct (Ascii.eqb colon ":"); [|done].
    pose proof (skip_ws_shorter rest1 _ eq_refl).
    destruct (scan_once fuel (skip_ws rest1)) as [[value rest2]| | |] eqn:E2;
      try done.
    + apply (proj1 (scan_shorter fuel _)) in E2.
      destruct (skip_ws rest2) as [|c rest3] eqn:Ews2; [done|].
      apply skip_ws_shorter in Ews2. simpl in Ews2.
      destruct (Ascii.eqb c "}"); [done|].
      destruct (Ascii.eqb c ","); [|done].
      destruct (skip_ws rest3) as [|q rest4] eqn:Ews3; [done|].
      apply skip_ws_shorter in Ews3. simpl in Ews3.
      destruct (Ascii.eqb q dquote); [|done].
      destruct (object_loop fuel rest4) as [[pairs rest5]| | |] eqn:E3; try done.
      apply (proj2 (proj2 (IH _))) in E3; [done|lia].
    + apply (proj1 (IH _)) in E2; [done|lia].
Qed.

(** [loads] never runs out of its budget: it returns a value, raises
    [JSONDecodeError], or meets text outside the model. *)
Lemma loads_not_out_of_fuel s : loads s <> OutOfFuel.
Proof.
  unfold loads, and_then.
  destruct (scan_once _ _) as [[obj rest]| | |] eqn:E; try done.
  - by destruct (skip_ws rest).
  - pose proof (skip_ws_shorter s _ eq_refl).
    apply (proj1 (scan_fuel _ _)) in E; [done|lia].
Qed.

End JsonFacts.

(** ** Export *)

Lemma well_formed_strs (l : list string) : well_formed (JList (JStr <$> l)).
Proof. induction l as [|s l IH]; [done|]. by split. Qed.

Lemma to_json_well_formed (d : Item.t) : well_formed (Item.to_json d).
Proof.
  apply JsonFacts.well_formed_dict. split.
  - simpl. apply (bool_decide_unpack (NoDup _)). by vm_compute.
  - repeat constructor; simpl; apply well_formed_strs.
Qed.

Lemma wardrobe_well_formed (w : list Item.t) :
  well_formed (JList (Item.to_json <$> w)).
Proof.
  induction w as [|d w IH]; [done|]. rewrite fmap_cons.
  apply JsonFacts.well_formed_list_cons. split; [apply to_json_well_formed|done].
Qed.

Lemma loads_wardrobe_json (w : list Item.t) :
  Json.loads (wardrobe_json w) = Json.Ok (JList (Item.to_json <$> w)).
Proof. apply JsonFacts.loads_dumps, wardrobe_well_formed. Qed.

(** C5. After any number of [add_to_wardrobe] calls on a fresh bot,
    [json.loads] of the exported text succeeds and gives one dictionary per
    added item, in the order of the calls: every string field and the lists
    [color], [occasion] and [season] as they were in the item, the id the
    call assigned, and under ['features'] a list without repetition whose
    elements are exactly those of the item's set. *)
Theorem export_then_reparse llm1 llm2 (items : list ClothingItem) :
  let w := wardrobe (add_all items (init llm1 llm2)).2 in
  exists reparsed : list json,
    Json.loads (wardrobe_json w) = Json.Ok (JList reparsed) /\
    Forall2
      (fun (added : ClothingItem * Z) (v : json) =>
         exists fs : list string,
           v = JDict
                 [ ("category", JStr (category added.1));
                   ("description", JStr (description added.1));
                   ("color", JList (JStr <$> color added.1));
                   ("gender", JStr (gender added.1));
                   ("fabric", JStr (fabric added.1));
                   ("pattern", JStr (pattern added.1));
                   ("fit", JStr (fit added.1));
                   ("sleeve_length", JStr (sleeve_length added.1));
                   ("neck_type", JStr (neck_type added.1));
                   ("occasion", JList (JStr <$> occasion added.1));
                   ("season", JList (JStr <$> season added.1));
                   ("features", JList (JStr <$> fs));
                   ("id", JInt added.2) ] /\
           NoDup fs /\ list_to_set fs = features added.1)
      (zip items (ids_upto (length items))) reparsed.
Proof.
  intros w. exists (Item.to_json <$> w). split; [apply loads_wardrobe_json|].
  subst w. destruct (add_all_spec items (init llm1 llm2)) as [_ ->].
  simpl. fold (ids_upto (length items)).
  generalize (ids_upto (length items)). clear.
  induction items as [|c items IH]; intros [|i ids]; simpl; try constructor.
  - exists (elements (features c)). split; [done|].
    split; [apply NoDup_elements | apply list_to_set_elements_L].
  - apply IH.
Qed.

(** ** Rendering a recommendation *)

Lemma emits_ret {A} (a : A) s : emits (ret a) s a [].
Proof. unfold emits, ret. by rewrite add_page_nil. Qed.

Lemma emits_st c s : emits (st c) s tt [c].
Proof. reflexivity. Qed.

Lemma emits_bind {A B} (m : M A) (k : A -> M B) s a b l1 l2 :
  emits m s a l1 -> emits (k a) (add_page s l1) b l2 ->
  emits (bind m k) s b (l1 ++ l2).
Proof.
  unfold emits, bind. intros -> ->. by rewrite add_page_app.
Qed.

Lemma emits_st_with {A} c (body : M A) s a l :
  emits body (add_page s [st_enter c]) a l ->
  emits (st_with c body) s a (st_enter c :: l ++ [st_exit c]).
Proof.
  intros Hbody. unfold st_with.
  apply (emits_bind _ _ _ tt a [st_enter c] (l ++ [st_exit c]));
    [apply emits_st|].
  apply (emits_bind _ _ _ a a l [st_exit c]); [done|].
  apply (emits_bind _ _ _ tt a [st_exit c] []); [apply emits_st|].
  apply emits_ret.
Qed.

Lemma emits_for_each {A} (l : list A) (body : A -> M unit)
    (g : A -> list st_call) s :
  (forall x s', wardrobe s' = wardrobe s -> emits (body x) s' tt (g x)) ->
  emits (for_each l body) s tt (l ≫= g).
Proof.
  intros Hbody. revert s Hbody.
  induction l as [|x l IH]; intros s Hbody; [apply emits_ret|].
  simpl. apply (emits_bind _ _ _ tt); [by apply Hbody|].
  apply IH. intros y s' Hs'. by apply Hbody.
Qed.

Lemma emits_eq {A} (m : M A) s a l l' : emits m s a l' -> l' = l -> emits m s a l.
Proof. by intros H <-. Qed.

Ltac emits_step :=
  cbv beta;
  lazymatch goal with
  | |- emits (ret _) _ _ _ => apply emits_ret
  | |- emits (st _) _ _ _ => apply emits_st
  | |- emits (st_with _ _) _ _ _ => eapply emits_st_with
  | |- emits (bind _ _) _ _ _ => eapply emits_bind
  end.

Lemma emits_entry w item_id s :
  wardrobe s = w ->
  emits
    (item <- get_item_by_id (Py.str item_id) ;;
     match item with
     | Some item =>
         st_with
           (expander
              ("Item " +:+ item_id +:+ ": " +:+ Item.category item +:+ " - "
               +:+ Py.join ", " (Item.color item)))
           (st (st_columns 2) ;;
            st_with (column 1)
              (st (st_write ("**Description:** " +:+ Item.description item)) ;;
               st (st_write ("**Fabric:** " +:+ Item.fabric item)) ;;
               st (st_write ("**Pattern:** " +:+ Item.pattern item)) ;;
               st (st_write ("**Fit:** " +:+ Item.fit item))) ;;
            st_with (column 2)
              (st (st_write
                     ("**Occasions:** " +:+ Py.join ", " (Item.occasion item))) ;;
               st (st_write
                     ("**Seasons:** " +:+ Py.join ", " (Item.season item))) ;;
               st (st_write
                     ("**Features:** " +:+ Py.join ", " (Item.features item)))))
     | None => ret tt
     end) s tt (render_entry w item_id).
Proof.
  intros <-. unfold emits, render_entry, lookup_item, get_item_by_id, get_wardrobe.
  unfold bind at 1 2. unfold ret at 1.
  destruct (find _ (wardrobe s)) as [item|]; [|apply emits_ret].
  eapply emits_eq; [repeat emits_step|reflexivity].
Qed.

Lemma emits_tips tips s :
  emits
    (match tips with
     | [] => ret tt
     | _ :: _ =>
         st (st_write "**Styling Tips:**") ;;
         for_each tips (fun tip => st (st_write ("‚Ä¢ " +:+ tip)))
     end) s tt (render_tips tips).
Proof.
  destruct tips as [|tip tips]; [apply emits_ret|].
  unfold render_tips.
  apply (emits_bind _ _ _ tt tt [_]); [apply emits_st|].
  eapply emits_eq.
  - apply (emits_for_each _ _ (fun tip => [st_write ("‚Ä¢ " +:+ tip)])).
    intros. apply emits_st.
  - generalize (tip :: tips). intros l.
    induction l as [|x l IH]; [done|]. by rewrite bind_cons, IH.
Qed.

Lemma display_outfit_recommendation_emits r s :
  emits (display_outfit_recommendation r) s tt
    (render_recommendation (wardrobe s) (recommended_items r) r).
Proof.
  unfold display_outfit_recommendation, render_recommendation.
  apply (emits_bind _ _ _ tt tt [_]); [apply emits_st|].
  apply (emits_bind _ _ _ tt tt [_]); [apply emits_st|].
  apply (emits_bind _ _ _ tt tt); [|].
  - apply emits_for_each. intros item_id s' Hs'. by apply emits_entry.
  - apply (emits_bind _ _ _ tt tt [_]); [apply emits_st|].
    apply (emits_bind _ _ _ tt tt [_]); [apply emits_st|].
    apply emits_tips.
Qed.

Lemma bind_render_entry_known w entries :
  filter (fun item_id => is_Some (lookup_item w item_id)) entries
    ≫= render_entry w
  = entries ≫= render_entry w.
Proof.
  induction entries as [|item_id entries IH]; [done|].
  rewrite filter_cons. case_decide as Hk.
  - by rewrite !bind_cons, IH.
  - rewrite bind_cons, IH. unfold render_entry at 2.
    destruct (lookup_item w item_id); [|done]. destruct Hk. eauto.
Qed.

(** C6. For every recommendation and every state, rendering puts on the
    page the heading, one expander for each entry of [recommended_items]
    that [get_item_by_id] finds, the reasoning and the styling tips, and
    changes nothing else; an entry whose id is not in the wardrobe adds
    nothing, so the page is the one of the recommendation without those
    entries. *)
Theorem display_skips_unknown_ids (s : state) (r : OutfitRecommendation) :
  let w := wardrobe s in
  let known :=
    filter (fun item_id => is_Some (lookup_item w item_id))
      (recommended_items r) in
  (forall item_id,
     (get_item_by_id (Py.str item_id) s).1 = lookup_item w item_id) /\
  display_outfit_recommendation r s =
    (tt, add_page s (render_recommendation w known r)) /\
  display_outfit_recommendation r s =
    display_outfit_recommendation (known_items w r) s.
Proof.
  intros w known. split; [done|].
  assert (display_outfit_recommendation r s =
          (tt, add_page s (render_recommendation w known r))) as Heq.
  { rewrite display_outfit_recommendation_emits.
    unfold render_recommendation, known. fold w.
    by rewrite bind_render_entry_known. }
  split; [done|]. rewrite Heq.
  by rewrite display_outfit_recommendation_emits.
Qed.

(** ** Lookup by id *)

Lemma get_item_by_id_eq item_id s :
  get_item_by_id item_id s =
  (List.find
     (fun item => String.eqb (pretty (Item.id item)) (Py.str_of item_id))
     (wardrobe s), s).
Proof. reflexivity. Qed.

Lemma find_first {A} (f : A -> bool) (l : list A) i x :
  l !! i = Some x -> f x = true ->
  (forall j y, (j < i)%nat -> l !! j = Some y -> f y = false) ->
  List.find f l = Some x.
Proof.
  revert i. induction l as [|a l IH]; intros i Hi Hx Hbefore; [done|].
  destruct i as [|i]; simpl in *.
  - injection Hi as ->. by rewrite Hx.
  - rewrite (Hbefore 0%nat a) by (done || lia).
    apply (IH i); [done..|]. intros j y Hj Hy. apply (Hbefore (S j)); [lia|done].
Qed.

Lemma find_none {A} (f : A -> bool) (l : list A) :
  (forall x, x ∈ l -> f x = false) -> List.find f l = None.
Proof.
  induction l as [|a l IH]; intros H; [done|]. simpl.
  rewrite (H a) by apply list_elem_of_here.
  apply IH. intros x Hx. apply H. by apply list_elem_of_further.
Qed.

Lemma eqb_pretty_false (j k : Z) : j <> k -> String.eqb (pretty j) (pretty k) = false.
Proof.
  intros Hjk. apply String.eqb_neq. intros H. by apply (inj pretty) in H.
Qed.

Lemma wardrobe_lookup_id (w : list Item.t) i item :
  Item.id <$> w = ids_upto (length w) ->
  w !! i = Some item -> Item.id item = Z.of_nat i + 1.
Proof.
  intros Hids Hi. pose proof (lookup_lt_Some _ _ _ Hi) as Hlt.
  apply (f_equal (fun l => l !! i)) in Hids.
  rewrite list_lookup_fmap, Hi, ids_upto_lookup in Hids by done.
  by injection Hids.
Qed.

Lemma find_id_present (w : list Item.t) (k : Z) :
  Item.id <$> w = ids_upto (length w) ->
  1 <= k <= Z.of_nat (length w) ->
  List.find (fun item => String.eqb (pretty (Item.id item)) (pretty k)) w =
  w !! Z.to_nat (k - 1).
Proof.
  intros Hids Hk.
  destruct (lookup_lt_is_Some_2 w (Z.to_nat (k - 1))) as [item Hitem]; [lia|].
  rewrite Hitem. apply (find_first _ _ (Z.to_nat (k - 1))); [done|..].
  - rewrite (wardrobe_lookup_id w _ _ Hids Hitem).
    apply String.eqb_eq. f_equal. lia.
  - intros j y Hj Hy. rewrite (wardrobe_lookup_id w _ _ Hids Hy).
    apply eqb_pretty_false. lia.
Qed.

Lemma find_id_absent (w : list Item.t) (text : string) :
  Item.id <$> w = ids_upto (length w) ->
  (forall k, 1 <= k <= Z.of_nat (length w) -> text <> pretty k) ->
  List.find (fun item => String.eqb (pretty (Item.id item)) text) w = None.
Proof.
  intros Hids Htext. apply find_none. intros item Hitem.
  apply list_elem_of_lookup in Hitem as [i Hi].
  pose proof (lookup_lt_Some _ _ _ Hi).
  apply String.eqb_neq. intros Heq. apply (Htext (Item.id item)); [|done].
  rewrite (wardrobe_lookup_id w _ _ Hids Hi). lia.
Qed.

(** C3. In every state a session reaches, [get_item_by_id] gives the same
    answer for an integer and for its decimal text; for an id from 1 to
    [len(self.wardrobe)] the answer is the item stored under that id (the
    one at position [id - 1]), and for any other integer it is [None]. *)
Theorem get_item_by_id_int_or_text llm1 llm2 (ops : list op) (k : Z) :
  let s := session llm1 llm2 ops in
  let assigned := bool_decide (1 <= k <= Z.of_nat (length (wardrobe s))) in
  (get_item_by_id (Py.str (pretty k)) s).1 = (get_item_by_id (Py.int k) s).1 /\
  (get_item_by_id (Py.int k) s).1 =
    (if assigned then wardrobe s !! Z.to_nat (k - 1) else None) /\
  Item.id <$> (get_item_by_id (Py.int k) s).1 =
    (if assigned then Some k else None).
Proof.
  intros s assigned. split; [done|].
  pose proof (session_ids llm1 llm2 ops) as Hids. fold s in Hids.
  rewrite get_item_by_id_eq. simpl. subst assigned. case_bool_decide as Hk.
  - rewrite find_id_present by done. split; [done|].
    destruct (lookup_lt_is_Some_2 (wardrobe s) (Z.to_nat (k - 1)))
      as [item Hitem]; [lia|].
    rewrite Hitem. simpl. f_equal.
    rewrite (wardrobe_lookup_id _ _ _ Hids Hitem). lia.
  - rewrite find_id_absent; [done|done|].
    intros j Hj Heq. apply (inj pretty) in Heq. lia.
Qed.

(** A positive integer is the only reading of its decimal text. *)
Lemma pretty_pos_match_integer (k : Z) (text : string) :
  0 < k -> text = pretty k ->
  Json.match_integer text = Some (Z.to_N k, "").
Proof.
  intros Hk ->. destruct k as [|p|p]; try lia.
  rewrite <- (JsonFacts.append_nil_r (pretty (Z.pos p))).
  rewrite JsonFacts.pretty_pos_append.
  apply JsonFacts.match_integer_pretty_N; [lia|done].
Qed.

(** C9. In every state a session reaches, [get_item_by_id] of a text
    returns an item only when the text is, character for character, the
    decimal form of that item's id, and returns [None] for every text that
    is the decimal form of no stored id; so it returns [None] for ["01"],
    ["1 "] and ["1.0"], which are the decimal form of no integer. *)
Theorem get_item_by_id_exact_text llm1 llm2 (ops : list op) (text : string) :
  let s := session llm1 llm2 ops in
  (forall item,
     (get_item_by_id (Py.str text) s).1 = Some item ->
     item ∈ wardrobe s /\ text = pretty (Item.id item)) /\
  ((forall k, 1 <= k <= Z.of_nat (length (wardrobe s)) -> text <> pretty k) ->
   (get_item_by_id (Py.str text) s).1 = None) /\
  (get_item_by_id (Py.str "01") s).1 = None /\
  (get_item_by_id (Py.str "1 ") s).1 = None /\
  (get_item_by_id (Py.str "1.0") s).1 = None.
Proof.
  intros s. pose proof (session_ids llm1 llm2 ops) as Hids. fold s in Hids.
  split.
  { intros item Hfind. rewrite get_item_by_id_eq in Hfind. simpl in Hfind.
    apply find_some in Hfind as [Hin Heq].
    apply String.eqb_eq in Heq. split; [by apply list_elem_of_In|done]. }
  split.
  { intros Htext. rewrite get_item_by_id_eq. simpl. by apply find_id_absent. }
  repeat split; rewrite get_item_by_id_eq; simpl;
    (apply find_id_absent; [done|]); intros k Hk Heq;
    apply pretty_pos_match_integer in Heq; try lia; discriminate Heq.
Qed.

(** ** The handlers of [main], step by step *)

Lemma analyze_button_eq image_bytes s :
  let p := analyze_prompt (encode_image image_bytes) in
  let spin := spinner "Analyzing clothing item..." in
  let s1 := log_call (add_page s [st_enter spin]) p in
  analyze_button image_bytes s =
  match structured_llm s (length (gateway_log s)) p with
  | inr c =>
      let n := Z.of_nat (length (wardrobe s)) + 1 in
      (tt,
       add_page (wardrobe_append (item_dict c n) s1).2
         [ st_success ("‚úÖ Added to wardrobe as Item #" +:+ pretty n);
           st_json (JDict (model_dump c));
           st_exit spin ])
  | inl e =>
      (tt,
       add_page s1
         [ st_error ("Error analyzing image: " +:+ Py.str_of_exc e);
           st_exit spin ])
  end.
Proof.
  intros p spin s1. unfold analyze_button, st_with, bind.
  rewrite st_add_page, analyze_clothing_image_eq. simpl.
  fold p. destruct (structured_llm s _ p) as [e|c]; simpl.
  - unfold add_page; simpl. by rewrite <- !app_assoc.
  - unfold add_page; simpl. by rewrite <- !app_assoc.
Qed.

Lemma recommendations_tab_eq o t d y a clicked s :
  let prefs := user_preferences_text o t d y a in
  let p := recommend_prompt (wardrobe s) prefs 3 in
  let spin := spinner "Creating your perfect outfit..." in
  recommendations_tab o t d y a clicked s =
  match wardrobe s with
  | [] =>
      (tt,
       add_page s
         [st_warning "Please add some clothing items to your wardrobe first!"])
  | _ :: _ =>
      if clicked then
        match recommendation_llm s (length (gateway_log s)) p with
        | inr r =>
            (tt,
             add_page (log_call s p)
               (st_enter spin
                :: render_recommendation (wardrobe s) (recommended_items r) r
                ++ [st_exit spin]))
        | inl e =>
            (tt,
             add_page (log_call s p)
               [ st_enter spin;
                 st_error
                   ("Error getting recommendations: " +:+ Py.str_of_exc e);
                 st_error
                   "Could not generate recommendations. Please try again.";
                 st_exit spin ])
        end
      else (tt, s)
  end.
Proof.
  cbv zeta. unfold recommendations_tab, bind at 1, get_wardrobe.
  destruct (wardrobe s) as [|item w] eqn:Hw; [reflexivity|].
  destruct clicked; [|reflexivity].
  unfold st_with, bind. rewrite st_add_page, get_outfit_recommendations_eq.
  cbv zeta. cbn [wardrobe add_page gateway_log recommendation_llm].
  rewrite Hw.
  destruct (recommendation_llm s _ _) as [e|r].
  - unfold add_page, log_call, st, ret; simpl. by rewrite <- ?app_assoc.
  - rewrite display_outfit_recommendation_emits.
    unfold add_page, log_call, st, ret, render_recommendation; simpl.
    rewrite ?Hw. rewrite <- ?app_assoc; simpl. by rewrite <- ?app_assoc.
Qed.

Lemma emits_listing_item item s :
  emits
    (st_with
       (expander
          ("Item #" +:+ pretty (Item.id item) +:+ ": "
           +:+ Item.category item +:+ " - "
           +:+ Py.join ", " (Item.color item)))
       (st (st_columns 3) ;;
        st_with (column 1)
          (st (st_write ("**Category:** " +:+ Item.category item)) ;;
           st (st_write ("**Colors:** " +:+ Py.join ", " (Item.color item))) ;;
           st (st_write ("**Pattern:** " +:+ Item.pattern item)) ;;
           st (st_write ("**Fabric:** " +:+ Item.fabric item))) ;;
        st_with (column 2)
          (st (st_write ("**Fit:** " +:+ Item.fit item)) ;;
           st (st_write
                 ("**Sleeve Length:** " +:+ Item.sleeve_length item)) ;;
           st (st_write ("**Neck Type:** " +:+ Item.neck_type item)) ;;
           st (st_write ("**Gender:** " +:+ Item.gender item))) ;;
        st_with (column 3)
          (st (st_write
                 ("**Occasions:** " +:+ Py.join ", " (Item.occasion item))) ;;
           st (st_write
                 ("**Seasons:** " +:+ Py.join ", " (Item.season item))) ;;
           st (st_write
                 ("**Features:** " +:+ Py.join ", " (Item.features item)))) ;;
        st (st_write ("**Description:** " +:+ Item.description item))))
    s tt (render_listing_item item).
Proof. eapply emits_eq; [repeat emits_step|reflexivity]. Qed.

Lemma wardrobe_tab_eq clicked s :
  wardrobe_tab clicked s =
  match wardrobe s with
  | [] =>
      (tt,
       add_page s
         [st_info
            "Your wardrobe is empty. Start by adding some clothing items!"])
  | _ :: _ =>
      (tt,
       add_page s
         ((wardrobe s ≫= render_listing_item)
          ++ (if clicked then
                [st_download_button "Download Wardrobe JSON"
                   (wardrobe_json (wardrobe s)) "my_wardrobe.json"
                   "application/json"]
              else [])))
  end.
Proof.
  unfold wardrobe_tab, bind at 1, get_wardrobe.
  destruct (wardrobe s) as [|item w] eqn:Hw; [reflexivity|].
  rewrite <- Hw. clear Hw.
  apply (emits_bind _ _ _ tt tt).
  - apply emits_for_each. intros x s' _. apply emits_listing_item.
  - destruct clicked; [apply emits_st | apply emits_ret].
Qed.

(** ** What one operation does to the gateway, the model clients and the log *)

Ltac op_cases o s :=
  destruct o as [b|c|prefs n|i|r|b|o' t d y a k|k]; cbn [run_op];
  unfold bind;
  rewrite ?analyze_clothing_image_eq, ?add_to_wardrobe_eq,
    ?get_outfit_recommendations_eq, ?get_item_by_id_eq,
    ?display_outfit_recommendation_emits, ?analyze_button_eq,
    ?recommendations_tab_eq, ?wardrobe_tab_eq;
  cbv zeta;
  repeat
    match goal with
    | |- context [match wardrobe s with _ => _ end] =>
        destruct (wardrobe s) eqn:?
    | |- context [match structured_llm s ?n ?p with _ => _ end] =>
        destruct (structured_llm s n p) eqn:?
    | |- context [match recommendation_llm s ?n ?p with _ => _ end] =>
        destruct (recommendation_llm s n p) eqn:?
    | |- context [if ?c then _ else _] => destruct c
    end.



Lemma run_op_log o s :
  exists calls,
    gateway_log (run_op o s).2 = gateway_log s ++ calls /\
    (length calls <= 1)%nat /\
    Forall
      (fun p =>
         (exists b, p = analyze_prompt (encode_image b)) \/
         (exists prefs n,
            wardrobe s <> [] /\ p = recommend_prompt (wardrobe s) prefs n))
      calls.
Proof.
  op_cases o s; simpl;
    try (exists []; rewrite app_nil_r; split; [done|]; split; [simpl; lia|];
         by constructor);
    (eexists [_]; split; [reflexivity|]; split; [simpl; lia|];
     constructor; [|constructor]);
    first [ left; eexists; reflexivity
          | right; eexists _, _; split; [|reflexivity]; congruence ].
Qed.

(** ** The Attribute Extractor and the calls to the gateway *)

(** X3. When the gateway answers the call made by [analyze_clothing_image],
    the method returns that answer as it is; the prompt it sent holds the
    image as a base64 data URL; nothing is displayed and [self.wardrobe] is
    as before (the item is not stored until [add_to_wardrobe] is called). *)
Theorem analyze_success_returns_answer (s : state) (image_bytes : list byte)
    (c : ClothingItem) :
  structured_llm s (length (gateway_log s))
    (analyze_prompt (Base64.b64encode image_bytes)) = inr c ->
  (analyze_clothing_image image_bytes s).1 = Some c /\
  gateway_log (analyze_clothing_image image_bytes s).2 =
    gateway_log s
    ++ [ [ SystemMessage [ text_part analyze_system_text ];
           HumanMessage
             [ text_part analyze_human_text;
               image_url_part
                 ("data:image/jpeg;base64,"
                  +:+ Base64.b64encode image_bytes) ] ] ] /\
  page (analyze_clothing_image image_bytes s).2 = page s /\
  wardrobe (analyze_clothing_image image_bytes s).2 = wardrobe s.
Proof.
  intros Hc. rewrite analyze_clothing_image_eq. cbv zeta.
  unfold encode_image. by rewrite Hc.
Qed.

(** A gateway that always answers with the blue T-shirt. *)
Lemma analyze_success_returns_answer_witness :
  (analyze_clothing_image [x4d; x61; x6e]%byte
     (init (constant_llm blue_tshirt) failing_llm)).1 = Some blue_tshirt.
Proof.
  apply (analyze_success_returns_answer
           (init (constant_llm blue_tshirt) failing_llm)
           [x4d; x61; x6e]%byte blue_tshirt).
  reflexivity.
Defined.

(** X4. One call of [analyze_clothing_image] sends exactly one prompt to
    the gateway, whether the gateway answers or raises;
    [get_outfit_recommendations] sends exactly one when the wardrobe is not
    empty and none when it is; [add_to_wardrobe], [get_item_by_id],
    [display_outfit_recommendation] and the wardrobe tab send none. *)
Theorem gateway_calls_per_method (s : state) :
  (forall image_bytes,
     gateway_log (analyze_clothing_image image_bytes s).2 =
     gateway_log s ++ [analyze_prompt (encode_image image_bytes)]) /\
  (forall prefs n,
     gateway_log (get_outfit_recommendations prefs n s).2 =
     gateway_log s
     ++ match wardrobe s with
        | [] => []
        | _ :: _ => [recommend_prompt (wardrobe s) prefs n]
        end) /\
  (forall c, gateway_log (add_to_wardrobe c s).2 = gateway_log s) /\
  (forall item_id, gateway_log (get_item_by_id item_id s).2 = gateway_log s) /\
  (forall r,
     gateway_log (display_outfit_recommendation r s).2 = gateway_log s) /\
  (forall clicked, gateway_log (wardrobe_tab clicked s).2 = gateway_log s).
Proof.
  repeat split; intros.
  - rewrite analyze_clothing_image_eq. cbv zeta.
    by destruct (structured_llm s _ _).
  - rewrite get_outfit_recommendations_eq. cbv zeta.
    destruct (wardrobe s); [by rewrite app_nil_r|].
    by destruct (recommendation_llm s _ _).
  - by rewrite display_outfit_recommendation_emits.
  - rewrite wardrobe_tab_eq. by destruct (wardrobe s).
Qed.

(** X5. In every session the gateway has been called at most once per
    operation, and every prompt it received is either an image-analysis
    prompt or a recommendation prompt built from a non-empty wardrobe that
    is an initial part of the present one: the model is never asked to
    recommend from an empty wardrobe. *)
Theorem session_gateway_calls llm1 llm2 (ops : list op) :
  let s := session llm1 llm2 ops in
  (length (gateway_log s) <= length ops)%nat /\
  Forall
    (fun p =>
       (exists b, p = analyze_prompt (encode_image b)) \/
       (exists w prefs n,
          w <> [] /\ w `prefix_of` wardrobe s /\
          p = recommend_prompt w prefs n))
    (gateway_log s).
Proof.
  simpl. induction ops as [|o ops [IHlen IHall]] using rev_ind.
  - split; [done|]. constructor.
  - rewrite session_snoc. set (s := session llm1 llm2 ops) in *.
    destruct (run_op_log o s) as (calls & -> & Hlen & Hcalls).
    assert (wardrobe s `prefix_of` wardrobe (run_op o s).2) as Hpre.
    { destruct (run_op_wardrobe o s) as [->|[c ->]]; [done|].
      by apply prefix_app_r. }
    split; [rewrite !length_app; simpl; lia|].
    apply Forall_app. split.
    + eapply Forall_impl; [exact IHall|]. simpl.
      intros p [Hp|(w & prefs & n & Hw & Hwp & Hp)]; [by left|right].
      exists w, prefs, n. split; [done|]. split; [by etrans|done].
    + eapply Forall_impl; [exact Hcalls|]. simpl.
      intros p [Hp|(prefs & n & Hw & Hp)]; [by left|right].
      by exists (wardrobe s), prefs, n.
Qed.




(** ** Adding and looking up *)

Lemma session_prefix llm1 llm2 ops ops' :
  wardrobe (session llm1 llm2 ops)
  `prefix_of` wardrobe (session llm1 llm2 (ops ++ ops')).
Proof.
  induction ops' as [|o ops' IH] using rev_ind; [by rewrite app_nil_r|].
  rewrite app_assoc, session_snoc. etrans; [exact IH|].
  destruct (run_op_wardrobe o (session llm1 llm2 (ops ++ ops')))
    as [->|[c ->]]; [done|]. by apply prefix_app_r.
Qed.

Lemma find_app_Some {A} (f : A -> bool) (l k : list A) x :
  List.find f l = Some x -> List.find f (l ++ k) = Some x.
Proof.
  induction l as [|a l IH]; [done|]. simpl. by destruct (f a).
Qed.

(** X6. In every session, the id [add_to_wardrobe] returns finds the item
    just added, passed to [get_item_by_id] as the integer or as its text. *)
Theorem add_then_lookup llm1 llm2 (ops : list op) (c : ClothingItem) :
  let added := add_to_wardrobe c (session llm1 llm2 ops) in
  (get_item_by_id (Py.int added.1) added.2).1 = Some (item_dict c added.1) /\
  (get_item_by_id (Py.str (pretty added.1)) added.2).1 =
    Some (item_dict c added.1).
Proof.
  cbv zeta. set (s := session llm1 llm2 ops).
  assert ((add_to_wardrobe c s).2 = session llm1 llm2 (ops ++ [add c])) as Heq.
  { by rewrite session_snoc. }
  pose proof (session_ids llm1 llm2 (ops ++ [add c])) as Hids.
  rewrite <- Heq in Hids. rewrite !get_item_by_id_eq.
  cbn [fst Py.str_of]. rewrite add_to_wardrobe_eq in *. cbn [fst snd] in *.
  cbn [wardrobe wardrobe_append snd] in *.
  rewrite find_id_present;
    [|done|rewrite length_app; simpl; lia].
  replace (Z.to_nat (Z.of_nat (length (wardrobe s)) + 1 - 1))
    with (length (wardrobe s) + 0)%nat by lia.
  by rewrite lookup_app_r, Nat.add_comm, Nat.add_sub by lia.
Qed.

(** X7. Once [get_item_by_id] has found an item for an id, it finds the
    same item for that id after any further operations of the session. *)
Theorem lookup_is_stable llm1 llm2 (ops ops' : list op) (item_id : Py.object)
    (item : Item.t) :
  (get_item_by_id item_id (session llm1 llm2 ops)).1 = Some item ->
  (get_item_by_id item_id (session llm1 llm2 (ops ++ ops'))).1 = Some item.
Proof.
  rewrite !get_item_by_id_eq. cbn [fst]. intros Hfind.
  destruct (session_prefix llm1 llm2 ops ops') as [k ->].
  by apply find_app_Some.
Qed.

(** The T-shirt added first is still found under id 1 after a second add
    and a look at the wardrobe tab. *)
Lemma lookup_is_stable_witness :
  (get_item_by_id (Py.str "1")
     (session (@failing_llm ClothingItem) (@failing_llm OutfitRecommendation)
        ([add blue_tshirt] ++ [add blue_tshirt; view_wardrobe true]))).1 =
  Some (item_dict blue_tshirt 1).
Proof.
  apply (lookup_is_stable (@failing_llm ClothingItem)
           (@failing_llm OutfitRecommendation)
           [add blue_tshirt] [add blue_tshirt; view_wardrobe true]
           (Py.str "1") (item_dict blue_tshirt 1)).
  reflexivity.
Defined.

(** ** The handlers of [main], as a visitor sees them *)

Lemma expander_labels_app l k :
  expander_labels (l ++ k) = expander_labels l ++ expander_labels k.
Proof. apply omap_app. Qed.

Lemma downloads_app l k : downloads (l ++ k) = downloads l ++ downloads k.
Proof. apply omap_app. Qed.

Lemma errors_app l k : errors (l ++ k) = errors l ++ errors k.
Proof. apply omap_app. Qed.

Lemma expander_labels_listing (w : list Item.t) :
  expander_labels (w ≫= render_listing_item) = listing_label <$> w.
Proof.
  induction w as [|item w IH]; [done|].
  rewrite bind_cons, expander_labels_app, IH. reflexivity.
Qed.

Lemma downloads_listing (w : list Item.t) :
  downloads (w ≫= render_listing_item) = [].
Proof.
  induction w as [|item w IH]; [done|].
  rewrite bind_cons, downloads_app, IH. reflexivity.
Qed.

(** X8. When the gateway answers, the Analyze button appends one item to
    the wardrobe, holding every field of the answer ([features] as a list
    without repetition with the elements of the set) and the next id, and
    shows, inside the spinner, the success message with that id and the
    answer itself; the one prompt sent holds the upload. *)
Theorem analyze_button_success (image_bytes : list byte) (s : state)
    (c : ClothingItem) :
  structured_llm s (length (gateway_log s))
    (analyze_prompt (encode_image image_bytes)) = inr c ->
  let n := Z.of_nat (length (wardrobe s)) + 1 in
  let s' := (analyze_button image_bytes s).2 in
  wardrobe s' = wardrobe s ++ [item_dict c n] /\
  page s' =
    page s ++
    [ st_enter (spinner "Analyzing clothing item...");
      st_success ("‚úÖ Added to wardrobe as Item #" +:+ pretty n);
      st_json (JDict (model_dump c));
      st_exit (spinner "Analyzing clothing item...") ] /\
  gateway_log s' =
    gateway_log s ++ [analyze_prompt (encode_image image_bytes)] /\
  exists item,
    wardrobe s' = wardrobe s ++ [item] /\
    Item.category item = category c /\
    Item.description item = description c /\
    Item.color item = color c /\
    Item.gender item = gender c /\
    Item.fabric item = fabric c /\
    Item.pattern item = pattern c /\
    Item.fit item = fit c /\
    Item.sleeve_length item = sleeve_length c /\
    Item.neck_type item = neck_type c /\
    Item.occasion item = occasion c /\
    Item.season item = season c /\
    NoDup (Item.features item) /\
    list_to_set (Item.features item) = features c /\
    Item.id item = n /\
    Item.to_json item = JDict (model_dump c ++ [("id", JInt n)]).
Proof.
  intros Hllm. cbv zeta. rewrite analyze_button_eq. cbv zeta.
  rewrite Hllm. cbn [snd]. unfold add_page, log_call, wardrobe_append.
  cbn [wardrobe page gateway_log snd].
  split; [done|]. split; [by rewrite <- app_assoc|]. split; [done|].
  eexists. split; [reflexivity|]. item_fields.
Qed.

(** A first upload, with a gateway that answers with the T-shirt: the
    button stores it as item 1, with the fields of the answer. *)
Lemma analyze_button_success_witness :
  let s := init (constant_llm blue_tshirt) (@failing_llm OutfitRecommendation) in
  let s' := (analyze_button tiny_png s).2 in
  wardrobe s' = wardrobe s ++ [item_dict blue_tshirt 1] /\
  page s' =
    page s ++
    [ st_enter (spinner "Analyzing clothing item...");
      st_success ("‚úÖ Added to wardrobe as Item #" +:+ pretty 1);
      st_json (JDict (model_dump blue_tshirt));
      st_exit (spinner "Analyzing clothing item...") ] /\
  gateway_log s' = gateway_log s ++ [analyze_prompt (encode_image tiny_png)] /\
  exists item,
    wardrobe s' = wardrobe s ++ [item] /\
    Item.category item = category blue_tshirt /\
    Item.description item = description blue_tshirt /\
    Item.color item = color blue_tshirt /\
    Item.gender item = gender blue_tshirt /\
    Item.fabric item = fabric blue_tshirt /\
    Item.pattern item = pattern blue_tshirt /\
    Item.fit item = fit blue_tshirt /\
    Item.sleeve_length item = sleeve_length blue_tshirt /\
    Item.neck_type item = neck_type blue_tshirt /\
    Item.occasion item = occasion blue_tshirt /\
    Item.season item = season blue_tshirt /\
    NoDup (Item.features item) /\
    list_to_set (Item.features item) = features blue_tshirt /\
    Item.id item = 1 /\
    Item.to_json item = JDict (model_dump blue_tshirt ++ [("id", JInt 1)]).
Proof.
  exact (analyze_button_success tiny_png
           (init (constant_llm blue_tshirt) (@failing_llm OutfitRecommendation))
           blue_tshirt eq_refl).
Defined.

(** X9. The recommendations tab asks the gateway only on a click with a
    non-empty wardrobe: with an empty wardrobe it shows the warning, clicked
    or not, and without a click it adds no message to the page (only its
    input widgets); the rest of the state is as before. *)
Theorem recommendations_tab_without_call o t d y a (clicked : bool)
    (s : state) :
  wardrobe s = [] \/ clicked = false ->
  (recommendations_tab o t d y a clicked s).2 =
  add_page s
    (match wardrobe s with
     | [] =>
         [st_warning "Please add some clothing items to your wardrobe first!"]
     | _ :: _ => []
     end).
Proof.
  intros Hcase. rewrite recommendations_tab_eq. cbv zeta.
  destruct (wardrobe s) as [|item w]; [done|].
  destruct Hcase as [?| ->]; [done|]. by rewrite add_page_nil.
Qed.

Lemma recommendations_tab_without_call_witness :
  (recommendations_tab "Casual" "Summer" "Morning" "Classic" "" true
     (init (@failing_llm ClothingItem) (constant_llm dangling_recommendation))).2
  = add_page
      (init (@failing_llm ClothingItem) (constant_llm dangling_recommendation))
      [st_warning "Please add some clothing items to your wardrobe first!"].
Proof.
  apply (recommendations_tab_without_call "Casual" "Summer" "Morning"
           "Classic" "" true
           (init (@failing_llm ClothingItem)
              (constant_llm dangling_recommendation))).
  left. reflexivity.
Defined.

(** X10. When the gateway fails on a click in the recommendations tab, the
    page gets two error messages, the one of [get_outfit_recommendations]
    with the text of the exception and then the one of the tab; the wardrobe
    is unchanged and the call is logged. *)
Theorem recommendations_tab_failure o t d y a (s : state) (e : Py.Exception) :
  wardrobe s <> [] ->
  recommendation_llm s (length (gateway_log s))
    (recommend_prompt (wardrobe s) (user_preferences_text o t d y a) 3)
  = inl e ->
  let s' := (recommendations_tab o t d y a true s).2 in
  errors (page s') =
    errors (page s) ++
    [ "Error getting recommendations: " +:+ Py.str_of_exc e;
      "Could not generate recommendations. Please try again." ] /\
  wardrobe s' = wardrobe s /\
  length (gateway_log s') = S (length (gateway_log s)).
Proof.
  intros Hw Hllm. cbv zeta. rewrite recommendations_tab_eq. cbv zeta.
  destruct (wardrobe s) as [|item w] eqn:Hws; [done|].
  rewrite Hllm. cbn [snd]. unfold add_page, log_call.
  cbn [wardrobe page gateway_log]. rewrite errors_app, length_app.
  split_and!; [done|done|simpl; lia].
Qed.

Lemma recommendations_tab_failure_witness :
  let s :=
    session (@failing_llm ClothingItem) (@failing_llm OutfitRecommendation)
      [add blue_tshirt] in
  let s' :=
    (recommendations_tab "Casual" "Summer" "Morning" "Classic" "" true s).2 in
  errors (page s') =
    errors (page s) ++
    [ "Error getting recommendations: "
      +:+ Py.str_of_exc (Py.mkException "RuntimeError" "quota exceeded");
      "Could not generate recommendations. Please try again." ] /\
  wardrobe s' = wardrobe s /\
  length (gateway_log s') = S (length (gateway_log s)).
Proof.
  refine (recommendations_tab_failure "Casual" "Summer" "Morning" "Classic" ""
            (session (@failing_llm ClothingItem)
               (@failing_llm OutfitRecommendation) [add blue_tshirt])
            (Py.mkException "RuntimeError" "quota exceeded") _ eq_refl).
  discriminate.
Defined.

(** X11. When the gateway answers a click in the recommendations tab, the
    page gets, inside the spinner, the recommendation with exactly the
    entries [get_item_by_id] finds in the wardrobe, in the order of the
    answer; no message is shown for the others and the wardrobe is
    unchanged. *)
Theorem recommendations_tab_success o t d y a (s : state)
    (r : OutfitRecommendation) :
  wardrobe s <> [] ->
  recommendation_llm s (length (gateway_log s))
    (recommend_prompt (wardrobe s) (user_preferences_text o t d y a) 3)
  = inr r ->
  let s' := (recommendations_tab o t d y a true s).2 in
  page s' =
    page s ++
    st_enter (spinner "Creating your perfect outfit...")
    :: render_recommendation (wardrobe s)
         (recommended_items (known_items (wardrobe s) r)) r
    ++ [st_exit (spinner "Creating your perfect outfit...")] /\
  wardrobe s' = wardrobe s.
Proof.
  intros Hw Hllm. cbv zeta. rewrite recommendations_tab_eq. cbv zeta.
  destruct (wardrobe s) as [|item w] eqn:Hws; [done|].
  rewrite Hllm. cbn [snd]. unfold add_page, log_call.
  cbn [wardrobe page gateway_log]. split; [|done].
  unfold render_recommendation, known_items. cbn [recommended_items].
  by rewrite bind_render_entry_known.
Qed.

Lemma recommendations_tab_success_witness :
  let s :=
    session (@failing_llm ClothingItem) (constant_llm dangling_recommendation)
      [add blue_tshirt] in
  let s' :=
    (recommendations_tab "Casual" "Summer" "Morning" "Classic" "" true s).2 in
  page s' =
    page s ++
    st_enter (spinner "Creating your perfect outfit...")
    :: render_recommendation (wardrobe s)
         (recommended_items (known_items (wardrobe s) dangling_recommendation))
         dangling_recommendation
    ++ [st_exit (spinner "Creating your perfect outfit...")] /\
  wardrobe s' = wardrobe s.
Proof.
  refine (recommendations_tab_success "Casual" "Summer" "Morning" "Classic" ""
            (session (@failing_llm ClothingItem)
               (constant_llm dangling_recommendation) [add blue_tshirt])
            dangling_recommendation _ eq_refl).
  discriminate.
Defined.

(** X12. The download the wardrobe tab offers after a click on Export is
    text that [json.loads] parses back to the wardrobe, one dictionary per
    item in wardrobe order; with an empty wardrobe no download is offered. *)
Theorem wardrobe_tab_download (s : state) :
  downloads (page (wardrobe_tab true s).2) =
  downloads (page s) ++
  match wardrobe s with
  | [] => []
  | _ :: _ => [wardrobe_json (wardrobe s)]
  end /\
  Json.loads (wardrobe_json (wardrobe s))
  = Json.Ok (JList (Item.to_json <$> wardrobe s)).
Proof.
  split; [|apply loads_wardrobe_json].
  rewrite wardrobe_tab_eq.
  destruct (wardrobe s) as [|item w] eqn:Hw.
  - cbn [snd]. unfold add_page. cbn [page]. by rewrite downloads_app.
  - cbn [snd]. unfold add_page. cbn [page].
    by rewrite !downloads_app, downloads_listing.
Qed.

(** X13. The wardrobe tab opens one expander per stored item, in wardrobe
    order, labelled with the item's id, category and colours; clicking
    Export changes neither this nor the wardrobe. *)
Theorem wardrobe_tab_lists_items (clicked : bool) (s : state) :
  let s' := (wardrobe_tab clicked s).2 in
  expander_labels (page s') =
    expander_labels (page s) ++ (listing_label <$> wardrobe s) /\
  wardrobe s' = wardrobe s /\
  gateway_log s' = gateway_log s.
Proof.
  cbv zeta. rewrite wardrobe_tab_eq.
  destruct (wardrobe s) as [|item w] eqn:Hw.
  - cbn [snd]. unfold add_page. cbn [page wardrobe gateway_log].
    rewrite expander_labels_app, Hw. split_and!; reflexivity.
  - cbn [snd]. unfold add_page. cbn [page wardrobe gateway_log].
    rewrite !expander_labels_app, expander_labels_listing, Hw.
    replace (expander_labels (if clicked then _ else []))
      with (@nil string) by (by destruct clicked).
    by rewrite app_nil_r.
Qed.

(** ** [encode_image] *)

Lemma list_ind3 {A} (P : list A -> Prop) :
  P [] -> (forall a, P [a]) -> (forall a b, P [a; b]) ->
  (forall a b c l, P l -> P (a :: b :: c :: l)) ->
  forall l, P l.
Proof.
  intros H0 H1 H2 H3 l.
  cut (P l /\ (forall a, P (a :: l)) /\ (forall a b, P (a :: b :: l)));
    [tauto|].
  induction l as [|x l (IHl & IH1 & IH2)]; [by auto|].
  split_and!; [apply IH1| intros; apply IH2 | intros; by apply H3].
Qed.

Lemma b64encode_step a b c (l : list byte) :
  Base64.b64encode (a :: b :: c :: l) =
  let x := Byte.to_N a in
  let y := Byte.to_N b in
  let z := Byte.to_N c in
  String (Base64.sextet (x / 4))
    (String (Base64.sextet (x mod 4 * 16 + y / 16))
       (String (Base64.sextet (y mod 16 * 4 + z / 64))
          (String (Base64.sextet (z mod 64)) (Base64.b64encode l))))%N.
Proof. reflexivity. Qed.

Lemma get_base64_char i c :
  String.get i Base64.alphabet = Some c -> base64_char c = true.
Proof.
  intros Hget. unfold base64_char. apply orb_true_iff. right.
  apply existsb_exists. exists c. split; [|apply Ascii.eqb_refl].
  unfold chars. generalize dependent i.
  induction Base64.alphabet as [|c' s IH]; intros i Hget; [done|].
  destruct i as [|i]; simpl in *.
  - left. congruence.
  - right. by apply (IH i).
Qed.

Lemma sextet_base64_char n : base64_char (Base64.sextet n) = true.
Proof.
  unfold Base64.sextet.
  destruct (String.get _ _) as [c|] eqn:Hget; [|done].
  by apply (get_base64_char _ _ Hget).
Qed.

(** X1. [encode_image] returns four characters for every three bytes,
    rounded up, all of them letters, digits, [+], [/] or the padding [=]. *)
Theorem encode_image_shape (image_bytes : list byte) :
  String.length (encode_image image_bytes)
  = (4 * ((length image_bytes + 2) / 3))%nat /\
  forallb base64_char (chars (encode_image image_bytes)) = true.
Proof.
  unfold encode_image.
  induction image_bytes as [|a|a b|a b c l [IHlen IHchars]] using list_ind3.
  - done.
  - split; [done|]. cbn [Base64.b64encode chars list_ascii_of_string forallb].
    by rewrite !sextet_base64_char.
  - split; [done|]. cbn [Base64.b64encode chars list_ascii_of_string forallb].
    by rewrite !sextet_base64_char.
  - rewrite b64encode_step. cbv zeta. split.
    + cbn [String.length length]. rewrite IHlen.
      replace (S (S (S (length l))) + 2)%nat
        with (length l + 2 + 1 * 3)%nat by lia.
      rewrite Nat.div_add by done. lia.
    + unfold chars in *. cbn [list_ascii_of_string forallb].
      by rewrite !sextet_base64_char, IHchars.
Qed.

Lemma sextet_table :
  forallb
    (fun n =>
       negb (Ascii.eqb (Base64.sextet n) "=")
       && forallb
            (fun m =>
               implb (Ascii.eqb (Base64.sextet n) (Base64.sextet m)) (n =? m)%N)
            (N.of_nat <$> seq 0 64))
    (N.of_nat <$> seq 0 64) = true.
Proof. by vm_compute. Qed.

Lemma sextet_code n : (n < 64)%N -> In n (N.of_nat <$> seq 0 64).
Proof.
  intros Hn. apply list_elem_of_In, list_elem_of_fmap.
  exists (N.to_nat n). split; [lia|]. apply elem_of_seq. lia.
Qed.

Lemma sextet_inj n m :
  (n < 64)%N -> (m < 64)%N -> Base64.sextet n = Base64.sextet m -> n = m.
Proof.
  intros Hn Hm Heq. pose proof sextet_table as Ht.
  rewrite forallb_forall in Ht. specialize (Ht n (sextet_code n Hn)).
  apply andb_true_iff in Ht as [_ Ht]. rewrite forallb_forall in Ht.
  specialize (Ht m (sextet_code m Hm)).
  rewrite Heq, Ascii.eqb_refl in Ht. by apply N.eqb_eq.
Qed.

Lemma sextet_not_padding n : (n < 64)%N -> Base64.sextet n <> "="%char.
Proof.
  intros Hn Heq. pose proof sextet_table as Ht.
  rewrite forallb_forall in Ht. specialize (Ht n (sextet_code n Hn)).
  apply andb_true_iff in Ht as [Ht _]. by rewrite Heq in Ht.
Qed.

Lemma to_N_inj a b : Byte.to_N a = Byte.to_N b -> a = b.
Proof.
  intros Heq. pose proof (Byte.of_to_N a) as Ha.
  rewrite Heq, Byte.of_to_N in Ha. congruence.
Qed.

Lemma to_N_lt a : (Byte.to_N a < 256)%N.
Proof. pose proof (Byte.to_N_bounded a). lia. Qed.

(** [x = k * q + r] with [r < k], the quotient and remainder abstracted. *)
Ltac split_byte x k :=
  let q := fresh "q" in
  let r := fresh "r" in
  pose proof (N.div_mod x k ltac:(lia));
  pose proof (N.mod_upper_bound x k ltac:(lia));
  set (q := (x / k)%N) in *; set (r := (x mod k)%N) in *; clearbody q r.

Ltac split_bytes a b c :=
  pose proof (to_N_lt a); split_byte (Byte.to_N a) 4%N;
  try (pose proof (to_N_lt b); split_byte (Byte.to_N b) 16%N);
  try (pose proof (to_N_lt c); split_byte (Byte.to_N c) 64%N).

Ltac sextets :=
  repeat match goal with
  | H : Base64.sextet _ = "="%char |- _ =>
      exfalso; revert H; apply sextet_not_padding; lia
  | H : "="%char = Base64.sextet _ |- _ =>
      exfalso; symmetry in H; revert H; apply sextet_not_padding; lia
  | H : Base64.sextet _ = Base64.sextet _ |- _ =>
      apply sextet_inj in H; [|lia..]
  end.

Lemma b64encode_inj (bs bs' : list byte) :
  Base64.b64encode bs = Base64.b64encode bs' -> bs = bs'.
Proof.
  revert bs'.
  induction bs as [|a|a b|a b c l IH] using list_ind3;
    intros [|a' [|b' [|c' l']]]; rewrite ?b64encode_step;
    cbn [Base64.b64encode]; cbv zeta; intros Heq;
    try discriminate Heq; try reflexivity;
    injection Heq as Heq; intros;
    split_bytes a b c; split_bytes a' b' c'; sextets.
  - f_equal. apply to_N_inj. lia.
  - f_equal; [|f_equal]; apply to_N_inj; lia.
  - match goal with H : Base64.b64encode l = _ |- _ => apply IH in H as -> end.
    f_equal; [|f_equal; [|f_equal]]; apply to_N_inj; lia.
Qed.

Lemma append_inv_head (a b c : string) : a +:+ b = a +:+ c -> b = c.
Proof.
  induction a as [|x a IH]; [done|].
  intros Heq. injection Heq as Heq. by apply IH.
Qed.

(** X2. The request [analyze_clothing_image] builds determines the image:
    two uploads for which the same prompt is sent have the same bytes
    ([encode_image] loses nothing). *)
Theorem analyze_prompt_determines_image (image_bytes image_bytes' : list byte) :
  analyze_prompt (encode_image image_bytes)
  = analyze_prompt (encode_image image_bytes') ->
  image_bytes = image_bytes'.
Proof.
  unfold analyze_prompt, encode_image. intros Heq.
  injection Heq as Heq. by apply append_inv_head, b64encode_inj in Heq.
Qed.

Lemma analyze_prompt_determines_image_witness :
  [Byte.x4d; Byte.x61] = [Byte.x4d; Byte.x61].
Proof.
  exact (analyze_prompt_determines_image [Byte.x4d; Byte.x61]
           [Byte.x4d; Byte.x61] eq_refl).
Defined.

(** ** The exported text *)

Lemma plain_text_app (a b : string) :
  plain_text (a +:+ b) = plain_text a && plain_text b.
Proof.
  unfold plain_text, chars. induction a as [|c a IH]; [done|].
  change (String c a +:+ b) with (String c (a +:+ b)).
  cbn [list_ascii_of_string forallb]. by rewrite IH, andb_assoc.
Qed.

Lemma plain_text_cons c (s : string) :
  plain_text (String c s) = plain_ascii c && plain_text s.
Proof. reflexivity. Qed.

Lemma plain_escape_char c : plain_text (escape_char c) = true.
Proof. destruct c as [[] [] [] [] [] [] [] []]; reflexivity. Qed.

Lemma plain_encode_basestring_ascii s :
  plain_text (encode_basestring_ascii s) = true.
Proof.
  unfold encode_basestring_ascii. rewrite plain_text_cons, plain_text_app.
  assert (plain_text (escape_ascii s) = true) as ->; [|done].
  induction s as [|c s IH]; [done|].
  cbn [escape_ascii]. by rewrite plain_text_app, plain_escape_char, IH.
Qed.

Lemma plain_pretty_N_char d : (d < 10)%N -> plain_ascii (pretty_N_char d) = true.
Proof.
  intros Hd.
  assert (d = 0 \/ d = 1 \/ d = 2 \/ d = 3 \/ d = 4 \/ d = 5 \/ d = 6 \/ d = 7
          \/ d = 8 \/ d = 9)%N as Hcases by lia.
  by repeat (destruct Hcases as [->|Hcases]; [done|]); subst.
Qed.

Lemma plain_pretty_N_go x s :
  plain_text s = true -> plain_text (pretty_N_go x s) = true.
Proof.
  revert s. induction (N.lt_wf_0 x) as [x _ IH]; intros s Hs.
  destruct (decide (x = 0)%N) as [->|Hx]; [by rewrite pretty_N_go_0|].
  rewrite pretty_N_go_step by lia. apply IH; [apply N.div_lt; lia|].
  rewrite plain_text_cons, Hs, plain_pretty_N_char; [done|].
  apply N.mod_lt. lia.
Qed.

Lemma plain_pretty (z : Z) : plain_text (pretty z) = true.
Proof.
  assert (forall p, plain_text (pretty (Z.pos p)) = true) as Hpos.
  { intros p. rewrite <- (JsonFacts.append_nil_r (pretty (Z.pos p))).
    rewrite JsonFacts.pretty_pos_append. by apply plain_pretty_N_go. }
  destruct z as [|p|p]; [done|apply Hpos|].
  change (pretty (Z.neg p)) with (String "-" (pretty (Z.pos p))).
  by rewrite plain_text_cons, Hpos.
Qed.

Lemma plain_newline_indent _indent level :
  plain_text _indent = true ->
  plain_text (newline_indent _indent level) = true.
Proof.
  intros Hind. unfold newline_indent. rewrite plain_text_cons.
  change (plain_ascii nl) with true. cbn [andb].
  induction level as [|level IH]; [done|].
  cbn [Py.repeat_str]. by rewrite plain_text_app, Hind, IH.
Qed.

Lemma plain_iterencode _indent v :
  plain_text _indent = true ->
  forall level, plain_text (iterencode _indent level v) = true.
Proof.
  intros Hind.
  induction v as [| b | z | s | l IH | d IH] using json_ind; intros level.
  - done.
  - by destruct b.
  - apply plain_pretty.
  - apply plain_encode_basestring_ascii.
  - destruct l as [|v l]; [done|].
    apply Forall_cons in IH as [Hv IH].
    rewrite JsonFacts.iterencode_list, !plain_text_app.
    rewrite !plain_newline_indent, Hv by done.
    assert (plain_text (list_items _indent level l) = true) as ->; [|done].
    clear Hv. induction l as [|v' l IHl]; [done|].
    apply Forall_cons in IH as [Hv' IH]. cbn [list_items].
    rewrite !plain_text_app, plain_newline_indent, Hv', IHl by done. done.
  - destruct d as [|[k v] d]; [done|].
    apply Forall_cons in IH as [Hv IH]. simpl in Hv.
    rewrite JsonFacts.iterencode_dict, !plain_text_app.
    rewrite !plain_newline_indent, plain_encode_basestring_ascii, Hv by done.
    assert (plain_text (dict_items _indent level d) = true) as ->; [|done].
    clear Hv. induction d as [|[k' v'] d IHd]; [done|].
    apply Forall_cons in IH as [Hv' IH]. simpl in Hv'. cbn [dict_items].
    rewrite !plain_text_app, plain_newline_indent,
      plain_encode_basestring_ascii, Hv', IHd by done. done.
Qed.

Lemma plain_spaces n : plain_text (Py.repeat_str " " n) = true.
Proof.
  induction n as [|n IH]; [done|].
  cbn [Py.repeat_str]. by rewrite plain_text_app, IH.
Qed.

(** X15. Whatever text the stored items hold, the exported wardrobe is made
    of printable ASCII characters and line feeds only ([json.dumps] is
    called without [ensure_ascii=False]). *)
Theorem export_is_plain_ascii (w : list Item.t) :
  plain_text (wardrobe_json w) = true.
Proof. apply plain_iterencode, plain_spaces. Qed.

#[local] Instance JStr_inj : Inj (=) (=) JStr.
Proof. by intros s s' [=]. Qed.

Lemma to_json_inj (d d' : Item.t) : Item.to_json d = Item.to_json d' -> d = d'.
Proof.
  destruct d, d'. unfold Item.to_json. cbn. intros Heq.
  injection Heq as -> -> Hc -> -> -> -> -> -> Ho Hs Hf ->.
  apply (inj (fmap JStr)) in Hc, Ho, Hs, Hf. by subst.
Qed.

#[local] Instance to_json_Inj : Inj (=) (=) Item.to_json.
Proof. intros d d'. apply to_json_inj. Qed.

(** X16. The export loses nothing: two wardrobes with the same exported
    text are the same list of items. *)
Theorem export_is_lossless (w w' : list Item.t) :
  wardrobe_json w = wardrobe_json w' -> w = w'.
Proof.
  intros Heq. apply (f_equal Json.loads) in Heq.
  rewrite !loads_wardrobe_json in Heq. injection Heq as Heq.
  by apply (inj (fmap Item.to_json)) in Heq.
Qed.

Lemma export_is_lossless_witness :
  [item_dict blue_tshirt 1] = [item_dict blue_tshirt 1].
Proof.
  exact (export_is_lossless [item_dict blue_tshirt 1]
           [item_dict blue_tshirt 1] eq_refl).
Defined.

(** ** The request for recommendations *)

Lemma append_inv_tail (a b t : string) : a +:+ t = b +:+ t -> a = b.
Proof.
  intros Heq. assert (String.length a = String.length b) as Hlen.
  { apply (f_equal String.length) in Heq.
    rewrite !JsonFacts.length_append in Heq. lia. }
  revert b Heq Hlen.
  induction a as [|c a IH]; intros [|c' b] Heq Hlen; try discriminate Hlen.
  - done.
  - change (String c (a +:+ t) = String c' (b +:+ t)) in Heq.
    injection Heq as -> Heq. f_equal. apply IH; [done|].
    by injection Hlen.
Qed.

(** X17. The request [get_outfit_recommendations] builds determines what it
    was built from: two calls that send the same prompt had the same
    wardrobe, the same preferences and the same number of recommendations. *)
Theorem recommend_prompt_determines_wardrobe (w w' : list Item.t)
    (user_preferences user_preferences' : string)
    (num_recommendations num_recommendations' : Z) :
  recommend_prompt w user_preferences num_recommendations
  = recommend_prompt w' user_preferences' num_recommendations' ->
  w = w' /\ user_preferences = user_preferences'
  /\ num_recommendations = num_recommendations'.
Proof.
  unfold recommend_prompt, recommend_system_text. intros Heq.
  injection Heq as Hsys Hprefs.
  apply append_inv_head in Hsys, Hprefs.
  match type of Hsys with
  | _ +:+ ?r = _ +:+ ?r' => set (rest := r) in *; set (rest' := r') in *
  end.
  set (v := JList (Item.to_json <$> w)) in *.
  set (v' := JList (Item.to_json <$> w')) in *.
  pose (fuel := (need v `max` need v')%nat).
  assert (scan_once fuel (wardrobe_json w +:+ rest) = Ok (v, rest)) as Hscan.
  { apply JsonFacts.scan_once_iterencode;
      [apply wardrobe_well_formed|lia|reflexivity]. }
  assert (scan_once fuel (wardrobe_json w' +:+ rest') = Ok (v', rest'))
    as Hscan'.
  { apply JsonFacts.scan_once_iterencode;
      [apply wardrobe_well_formed|lia|reflexivity]. }
  rewrite Hsys, Hscan' in Hscan. injection Hscan as Hv Hrest.
  subst v v' rest rest'.
  apply (inj (fmap Item.to_json)) in Hv.
  apply append_inv_head, append_inv_tail, (inj pretty) in Hrest.
  by subst.
Qed.

Lemma recommend_prompt_determines_wardrobe_witness :
  [item_dict blue_tshirt 1] = [item_dict blue_tshirt 1]
  /\ "Occasion: Casual" = "Occasion: Casual" /\ 3 = 3.
Proof.
  exact (recommend_prompt_determines_wardrobe [item_dict blue_tshirt 1]
           [item_dict blue_tshirt 1] "Occasion: Casual" "Occasion: Casual"
           3 3 eq_refl).
Defined.

(** ** The scenarios of the specification, run *)

Example b64encode_Man : Base64.b64encode [x4d; x61; x6e]%byte = "TWFu".
Proof. reflexivity. Qed.

Example b64encode_padding :
  Base64.b64encode [x4d; x61]%byte = "TWE=" /\
  Base64.b64encode [x4d]%byte = "TQ==".
Proof. by split. Qed.

(** The one-pixel PNG, as the data URL carries it. *)
Example encode_image_tiny_png :
  encode_image tiny_png =
  "iVBORw0KGgoAAAANSUhEUgAAAAEAAAABCAYAAAAfFcSJAAAADUlEQVR4nGNgYPj/HwADAgH/5ncLrgAAAABJRU5ErkJggg==".
Proof. reflexivity. Qed.

(** One item gets id 1, a second one id 2, and the first is as it was. *)
Example scenario_two_adds :
  let s0 := init failing_llm failing_llm in
  let r1 := add_to_wardrobe blue_tshirt s0 in
  let r2 := add_to_wardrobe blue_tshirt r1.2 in
  r1.1 = 1 /\ length (wardrobe r1.2) = 1%nat /\ r2.1 = 2 /\
  wardrobe r2.2 !! 0%nat = wardrobe r1.2 !! 0%nat /\
  Item.features <$> wardrobe r1.2 = [["Breathable"]].
Proof. by vm_compute. Qed.

(** [recommend] before any [add]: [None], the store still empty, no call. *)
Example scenario_recommend_first :
  let s0 := init failing_llm (constant_llm dangling_recommendation) in
  let r := get_outfit_recommendations "Casual, Summer" 1 s0 in
  r.1 = None /\ wardrobe r.2 = [] /\ gateway_log r.2 = [].
Proof. by vm_compute. Qed.

(** A feature named twice by the model is one element of the set, and is
    written once. *)
Example duplicate_features_collapse :
  elements (list_to_set ["Breathable"; "Pocket"; "Breathable"] : gset string)
  ≡ₚ ["Breathable"; "Pocket"].
Proof. by vm_compute. Qed.

(** The dangling id ["7"] leaves no trace on the page. *)
Example scenario_dangling_id :
  let s := (add_to_wardrobe blue_tshirt (init failing_llm failing_llm)).2 in
  (display_outfit_recommendation dangling_recommendation s).2 =
  add_page s
    (render_recommendation (wardrobe s) ["1"] dangling_recommendation).
Proof. by vm_compute. Qed.

(** What [json.loads] makes of text that [json.dumps] would not write. *)
Example loads_examples :
  Json.loads "[1, 2 ,{ } , [ ] ,-0]" =
    Json.Ok (JList [JInt 1; JInt 2; JDict []; JList []; JInt 0]) /\
  Json.loads "[01]" = Json.JSONDecodeError /\
  Json.loads "1." = Json.JSONDecodeError /\
  Json.loads "[1.5]" = Json.Unmodelled /\
  Json.loads "[tru]" = Json.JSONDecodeError.
Proof. by vm_compute. Qed.
